(** * EACC marketplace MCP server: the job aggregation and filtering engine

    A shallow embedding of [src/index.ts] (class [EACCMCPServer]) and the
    properties of its four tool operations: [get_job_count], [search_jobs],
    [get_job_details] and [get_recent_jobs].

    The marketplace client ([EACCClient] of the [eacc-ts] package) is an
    external collaborator.  It is modelled as an oracle record whose three read
    methods either return a value or throw; every call made to it is recorded
    in a call log, so that statements about "which windows are fetched" are
    statements about the log. *)

From Stdlib Require Import ZArith Lia Ascii String.
From stdpp Require Import base list strings pretty sorting.

Local Open Scope Z_scope.

(** ** JavaScript values and string helpers *)

Module Js.

(** A line feed, written [\n] in the source's template literals. *)
Definition nl : string := String (ascii_of_nat 10) EmptyString.

(** [String.prototype.toLowerCase] on ASCII text: the letters A-Z are folded
    and every other character is left as it is.  JavaScript also folds
    letters outside ASCII: the model is exact on ASCII text only.  The
    theorems about the filters hold for any folding of letters (their proofs
    do not look into this function); the closed examples use ASCII text. *)
Definition lowerChar (c : ascii) : ascii :=
  let n := nat_of_ascii c in
  if ((65 <=? n) && (n <=? 90))%nat then ascii_of_nat (n + 32) else c.

Fixpoint toLowerCase (s : string) : string :=
  match s with
  | EmptyString => EmptyString
  | String c s' => String (lowerChar c) (toLowerCase s')
  end.

(** [s.includes(c)]: [c] occurs in [s] as a contiguous substring. *)
Fixpoint includes (s c : string) : bool :=
  String.prefix c s ||
  match s with
  | EmptyString => false
  | String _ s' => includes s' c
  end.

(** [Array.prototype.join]. *)
Definition join (sep : string) (parts : list string) : string :=
  String.concat sep parts.

(** Truthiness of a string: the empty string is falsy. *)
Definition truthyStr (s : string) : bool := negb (String.eqb s "").

(** Truthiness of an optional string ([undefined] is falsy). *)
Definition truthy (o : option string) : bool :=
  match o with
  | Some s => truthyStr s
  | None => false
  end.

(** [o || dflt] for an optional string. *)
Definition orElse (o : option string) (dflt : string) : string :=
  match o with
  | Some s => if truthyStr s then s else dflt
  | None => dflt
  end.

(** Fields of a job whose type the source never fixes (it only tests their
    truthiness and interpolates them): a number, a bigint or a string. *)
Inductive Value : Type :=
| Num (n : Z)
| BigInt (n : Z)
| Str (s : string).

Definition truthyVal (o : option Value) : bool :=
  match o with
  | Some (Num n) | Some (BigInt n) => negb (n =? 0)
  | Some (Str s) => truthyStr s
  | None => false
  end.

(** Interpolation [`${v}`] of an integral number, a bigint or a string. *)
Definition show (v : Value) : string :=
  match v with
  | Num n | BigInt n => pretty n
  | Str s => s
  end.

(** Interpolation of an optional integer: [undefined] prints as such. *)
Definition showOptZ (o : option Z) : string :=
  match o with
  | Some n => pretty n
  | None => "undefined"
  end.

(** [l.slice(0, end)]: a negative [end] counts from the end of the array,
    and the bounds are clamped to [0 .. l.length]. *)
Definition slice0 {A : Type} (l : list A) (end_ : Z) : list A :=
  let len := Z.of_nat (length l) in
  let final := if end_ <? 0 then Z.max (len + end_) 0 else Z.min end_ len in
  take (Z.to_nat final) l.

End Js.

(** ** Data model *)

Module Roles.
Record t : Type := mk { creator : option string; worker : option string }.
End Roles.

Module Job.
(** The fields of a job record that [index.ts] reads. *)
Record t : Type := mk {
  id : Z;
  escrowId : option Z;
  title : option string;
  description : option string;
  tags : option (list string);
  status : option string;
  paymentAmount : option Js.Value;
  contentHash : option Js.Value;
  amount : option Js.Value;
  state : option Js.Value;
  roles : option Roles.t;
  timestamp : option Z
}.
End Job.

(** What a JavaScript [throw] carries: an [Error] object with its message, or
    any other value, of which only [String(value)] is ever observed. *)
Inductive Thrown : Type :=
| ErrorObj (message : string)
| NonError (repr : string).

(** [error instanceof Error ? error.message : String(error)] *)
Definition errorText (e : Thrown) : string :=
  match e with
  | ErrorObj m => m
  | NonError r => r
  end.

Inductive Outcome (A : Type) : Type :=
| Returned (a : A)
| Raised (e : Thrown).
Arguments Returned {A} a.
Arguments Raised {A} e.

(** How the one-time construction and connection of the client ends. *)
Inductive InitOutcome : Type :=
| InitOk
| ConstructFails (e : Thrown)   (* thrown before [this.eaccClient] is assigned *)
| ConnectFails (e : Thrown).    (* thrown by [connectWithPrivateKey] *)

(** The marketplace client as an oracle. *)
Record EACCClient : Type := {
  initOutcome : InitOutcome;
  jobsLength : Outcome Z;                        (* getJobsLength() *)
  jobsRange : Z -> Z -> Outcome (list Job.t);    (* getJobs(start, end) *)
  jobById : option Z -> Outcome (option Job.t)   (* getJob(jobId) *)
}.

(** The uniform envelope [{ content: [{ type: 'text', text }] }]. *)
Record ContentItem : Type := { type : string; text : string }.
Record Response : Type := { content : list ContentItem }.

Definition textResponse (t : string) : Response :=
  {| content := [ {| type := "text"; text := t |} ] |}.

(** The text carried by a response ([None] unless it is a single text item). *)
Definition payload (r : Response) : option string :=
  match content r with
  | [ item ] => if String.eqb (type item) "text" then Some (text item) else None
  | _ => None
  end.

(** Arguments of a tool call; every field may be missing. *)
Record ToolArgs : Type := {
  arg_status : option string;
  arg_category : option string;
  arg_limit : option Z;
  arg_jobId : option Z
}.

(** ** Effects: server state, call log, exceptions *)

Inductive Call : Type :=
| CallLength
| CallRange (start end_ : Z)
| CallById (jobId : option Z).

Record World : Type := {
  eaccClient : bool;      (* [this.eaccClient] is not null *)
  calls : list Call       (* calls made to the client so far, oldest first *)
}.

Definition M (A : Type) : Type := World -> Outcome A * World.

Definition ret {A : Type} (a : A) : M A := fun w => (Returned a, w).

Definition throw {A : Type} (e : Thrown) : M A := fun w => (Raised e, w).

Definition bind {A B : Type} (m : M A) (k : A -> M B) : M B :=
  fun w =>
    match m w with
    | (Returned a, w') => k a w'
    | (Raised e, w') => (Raised e, w')
    end.

(** [try { body } catch (error) { handler }] *)
Definition tryCatch {A : Type} (body : M A) (handler : Thrown -> M A) : M A :=
  fun w =>
    match body w with
    | (Returned a, w') => (Returned a, w')
    | (Raised e, w') => handler e w'
    end.

Notation "'do' x <- m ;; k" := (bind m (fun x => k))
  (at level 10, x name, m at level 99, k at level 200).
Notation "'run' m ;; k" := (bind m (fun _ => k))
  (at level 10, m at level 99, k at level 200).

Definition logged (c : Call) (w : World) : World :=
  {| eaccClient := eaccClient w; calls := calls w ++ [c] |}.

Definition getJobsLength (client : EACCClient) : M Z :=
  fun w => (jobsLength client, logged CallLength w).

Definition getJobs (client : EACCClient) (start end_ : Z) : M (list Job.t) :=
  fun w => (jobsRange client start end_, logged (CallRange start end_) w).

Definition getJob (client : EACCClient) (jobId : option Z) : M (option Job.t) :=
  fun w => (jobById client jobId, logged (CallById jobId) w).

(** [if (!this.eaccClient) throw new Error('Client not initialized')] *)
Definition requireClient : M unit :=
  fun w =>
    if eaccClient w then (Returned tt, w)
    else (Raised (ErrorObj "Client not initialized"), w).

(** ** The server *)

Section Server.

(** [new Date(ms).toLocaleString()]: depends on the host's locale and time
    zone, so it is a parameter of the development. *)
Variable toLocaleString : Z -> string.

Variable client : EACCClient.

(** *** [initializeEACCClient] *)

Definition initializeEACCClient : M unit :=
  fun w =>
    if eaccClient w then (Returned tt, w)
    else
      match initOutcome client with
      | InitOk => (Returned tt, {| eaccClient := true; calls := calls w |})
      | ConstructFails e => (Raised e, w)
      | ConnectFails e => (Raised e, {| eaccClient := true; calls := calls w |})
      end.

(** *** [getJobCount] *)

(** The [try] block of [getJobCount]. *)
Definition getJobCountTry : M Response :=
  run requireClient ;;
  do count <- getJobsLength client ;;
  ret (textResponse
         ("There are currently " +:+ pretty count +:+
          " jobs on the EACC marketplace.")).

Definition getJobCount : M Response :=
  tryCatch getJobCountTry
    (fun error =>
       ret (textResponse ("Failed to get job count: " +:+ errorText error))).

(** *** [searchJobs]: the chunked scan *)

Definition batchSize : Z := 20.

(** [limit = 10] in the destructuring of the arguments. *)
Definition limitOf (args : ToolArgs) : Z := default 10 (arg_limit args).

Definition maxJobsToFetchOf (totalJobs limit : Z) : Z :=
  Z.min totalJobs (limit * 3).

(** The [for] loop of [searchJobs].  [start] and [allJobs] are the loop's
    two variables; every iteration advances [start] by [batchSize], so a
    fuel of [maxJobsToFetch] iterations is never used up (lemma
    [fetchLoop_run]: the loop condition is false when the loop returns). *)
Fixpoint fetchLoop (maxJobsToFetch limit : Z) (fuel : nat)
    (start : Z) (allJobs : list Job.t) : M (list Job.t) :=
  match fuel with
  | O => ret allJobs
  | S fuel' =>
      if (start <? maxJobsToFetch) && (Z.of_nat (length allJobs) <? limit)
      then
        let end_ := Z.min (start + batchSize) maxJobsToFetch in
        do allJobs' <-
          tryCatch
            (do batch <- getJobs client start end_ ;;
             ret (allJobs ++ batch))
            (fun batchError => ret allJobs) ;;
        fetchLoop maxJobsToFetch limit fuel' (start + batchSize) allJobs'
      else ret allJobs
  end.

Definition fetchJobs (maxJobsToFetch limit : Z) : M (list Job.t) :=
  fetchLoop maxJobsToFetch limit (Z.to_nat maxJobsToFetch) 0 [].

(** *** [searchJobs]: the filters *)

(** [job.status?.toLowerCase() === status.toLowerCase()] *)
Definition statusMatches (status : string) (job : Job.t) : bool :=
  match Job.status job with
  | Some s => String.eqb (Js.toLowerCase s) (Js.toLowerCase status)
  | None => false
  end.

(** [field?.toLowerCase().includes(category.toLowerCase())] *)
Definition fieldIncludes (field : option string) (category : string) : bool :=
  match field with
  | Some s => Js.includes (Js.toLowerCase s) (Js.toLowerCase category)
  | None => false
  end.

Definition categoryMatches (category : string) (job : Job.t) : bool :=
  fieldIncludes (Job.title job) category ||
  fieldIncludes (Job.description job) category ||
  match Job.tags job with
  | Some ts =>
      existsb (fun tag =>
                 Js.includes (Js.toLowerCase tag) (Js.toLowerCase category)) ts
  | None => false
  end.

(** [status && status !== 'all'] *)
Definition statusActive (status : option string) : option string :=
  match status with
  | Some s => if Js.truthyStr s && negb (String.eqb s "all") then Some s else None
  | None => None
  end.

(** [if (category)] *)
Definition categoryActive (category : option string) : option string :=
  match category with
  | Some c => if Js.truthyStr c then Some c else None
  | None => None
  end.

Definition filterByStatus (status : option string) (jobs : list Job.t)
    : list Job.t :=
  match statusActive status with
  | Some s => filter (fun job => statusMatches s job) jobs
  | None => jobs
  end.

Definition filterByCategory (category : option string) (jobs : list Job.t)
    : list Job.t :=
  match categoryActive category with
  | Some c => filter (fun job => categoryMatches c job) jobs
  | None => jobs
  end.

Definition applyFilters (status category : option string)
    (allJobs : list Job.t) : list Job.t :=
  filterByCategory category (filterByStatus status allJobs).

(** [const jobs = filteredJobs.slice(0, limit)] *)
Definition selectJobs (status category : option string) (limit : Z)
    (allJobs : list Job.t) : list Job.t :=
  Js.slice0 (applyFilters status category allJobs) limit.

(** *** [searchJobs]: selection and rendering *)

(** What [searchJobs] has in hand when it starts to build its answer: the
    ledger was empty, or [jobs] were selected out of [totalJobs]. *)
Inductive Selection : Type :=
| EmptyLedger
| Selected (totalJobs : Z) (jobs : list Job.t).

Definition searchSelect (args : ToolArgs) : M Selection :=
  run requireClient ;;
  let status := arg_status args in
  let category := arg_category args in
  let limit := limitOf args in
  do totalJobs <- getJobsLength client ;;
  if totalJobs =? 0 then ret EmptyLedger
  else
    let maxJobsToFetch := maxJobsToFetchOf totalJobs limit in
    do allJobs <- fetchJobs maxJobsToFetch limit ;;
    ret (Selected totalJobs (selectJobs status category limit allJobs)).

Definition noJobsText : string := "No jobs found on the marketplace.".

Definition untitled (job : Job.t) : string := Js.orElse (Job.title job) "Untitled".

Definition statusInfo (job : Job.t) : string :=
  match Job.status job with
  | Some s => if Js.truthyStr s then " - " +:+ s else ""
  | None => ""
  end.

Definition paymentInfo (job : Job.t) : string :=
  match Job.paymentAmount job with
  | Some v => if Js.truthyVal (Some v) then " - " +:+ Js.show v +:+ " ETH" else ""
  | None => ""
  end.

(** The callback of [jobs.map] in [searchJobs]. *)
Definition searchLine (index : nat) (job : Job.t) : string :=
  pretty (Z.of_nat index + 1) +:+ ". Job #" +:+ pretty (Job.id job) +:+ ": " +:+
  untitled job +:+ statusInfo job +:+ paymentInfo job.

Definition searchEmptyText (status category : option string) : string :=
  let filterText :=
    if Js.truthy status || Js.truthy category
    then " matching your criteria (status: " +:+ Js.orElse status "any" +:+
         ", category: " +:+ Js.orElse category "any" +:+ ")"
    else "" in
  "No jobs found" +:+ filterText +:+ ".".

Definition filterSummaryOf (status category : option string) : list string :=
  match statusActive status with Some s => ["status: " +:+ s] | None => [] end ++
  match categoryActive category with Some c => ["category: " +:+ c] | None => [] end.

Definition searchFoundText (status category : option string)
    (totalJobs : Z) (jobs : list Job.t) : string :=
  let jobList := Js.join Js.nl (imap searchLine jobs) in
  let filterSummary := filterSummaryOf status category in
  let filterText :=
    if (0 <? length filterSummary)%nat
    then " (filtered by " +:+ Js.join ", " filterSummary +:+ ")"
    else "" in
  "Found " +:+ pretty (Z.of_nat (length jobs)) +:+ " of " +:+ pretty totalJobs +:+
  " total jobs" +:+ filterText +:+ ":" +:+ Js.nl +:+ Js.nl +:+ jobList.

Definition searchRender (args : ToolArgs) (sel : Selection) : Response :=
  match sel with
  | EmptyLedger => textResponse noJobsText
  | Selected totalJobs jobs =>
      if (length jobs =? 0)%nat
      then textResponse (searchEmptyText (arg_status args) (arg_category args))
      else textResponse
             (searchFoundText (arg_status args) (arg_category args) totalJobs jobs)
  end.

(** The [try] block of [searchJobs]. *)
Definition searchJobsTry (args : ToolArgs) : M Response :=
  do sel <- searchSelect args ;;
  ret (searchRender args sel).

Definition searchJobs (args : ToolArgs) : M Response :=
  tryCatch (searchJobsTry args)
    (fun error =>
       ret (textResponse ("Failed to search jobs: " +:+ errorText error))).

(** *** [getJobDetails] *)

Definition orElseVal (o : option Js.Value) (dflt : string) : string :=
  match o with
  | Some v => if Js.truthyVal (Some v) then Js.show v else dflt
  | None => dflt
  end.

Definition createdText (job : Job.t) : string :=
  match Job.timestamp job with
  | Some ts => if ts =? 0 then "Unknown" else toLocaleString (ts * 1000)
  | None => "Unknown"
  end.

Definition detailsText (jobId : option Z) (job : Job.t) : string :=
  let creator := Job.roles job ≫= Roles.creator in
  let worker := Job.roles job ≫= Roles.worker in
  "Job #" +:+ Js.showOptZ jobId +:+ " Details:" +:+ Js.nl +:+
  "Title: " +:+ untitled job +:+ Js.nl +:+
  "Content hash: " +:+ orElseVal (Job.contentHash job) "No content available" +:+ Js.nl +:+
  "Payment: " +:+ orElseVal (Job.amount job) "TBD" +:+ Js.nl +:+
  "Status: " +:+ orElseVal (Job.state job) "Unknown" +:+ Js.nl +:+
  "Owner: " +:+ Js.orElse creator "Unknown" +:+ Js.nl +:+
  (if Js.truthy worker then "Worker: " +:+ default "" worker else "") +:+ Js.nl +:+
  "Created: " +:+ createdText job.

(** The [try] block of [getJobDetails]. *)
Definition getJobDetailsTry (args : ToolArgs) : M Response :=
  run requireClient ;;
  let jobId := arg_jobId args in
  do job <- getJob client jobId ;;
  match job with
  | None => ret (textResponse ("Job #" +:+ Js.showOptZ jobId +:+ " not found."))
  | Some job => ret (textResponse (detailsText jobId job))
  end.

Definition getJobDetails (args : ToolArgs) : M Response :=
  tryCatch (getJobDetailsTry args)
    (fun error =>
       ret (textResponse ("Failed to get job details: " +:+ errorText error))).

(** *** [getRecentJobs] *)

Definition recentSelect (args : ToolArgs) : M Selection :=
  run requireClient ;;
  let limit := limitOf args in
  do totalJobs <- getJobsLength client ;;
  if totalJobs =? 0 then ret EmptyLedger
  else
    let startIndex := Z.max 0 (totalJobs - limit) in
    do recentJobs <- getJobs client startIndex totalJobs ;;
    let sortedJobs := reverse recentJobs in
    ret (Selected totalJobs sortedJobs).

Definition timeInfo (job : Job.t) : string :=
  match Job.timestamp job with
  | Some ts => if ts =? 0 then "" else " - " +:+ toLocaleString (ts * 1000)
  | None => ""
  end.

(** The callback of [sortedJobs.map] in [getRecentJobs]. *)
Definition recentLine (index : nat) (job : Job.t) : string :=
  pretty (Z.of_nat index + 1) +:+ ". Escrow ID " +:+ Js.showOptZ (Job.escrowId job) +:+
  ": " +:+ untitled job +:+ timeInfo job.

Definition recentFoundText (sortedJobs : list Job.t) : string :=
  let jobList := Js.join Js.nl (imap recentLine sortedJobs) in
  "Most recent jobs (" +:+ pretty (Z.of_nat (length sortedJobs)) +:+ " found):" +:+
  Js.nl +:+ Js.nl +:+ jobList.

Definition recentRender (sel : Selection) : Response :=
  match sel with
  | EmptyLedger => textResponse noJobsText
  | Selected _ sortedJobs =>
      if (length sortedJobs =? 0)%nat
      then textResponse "No recent jobs found."
      else textResponse (recentFoundText sortedJobs)
  end.

(** The [try] block of [getRecentJobs]. *)
Definition getRecentJobsTry (args : ToolArgs) : M Response :=
  do sel <- recentSelect args ;;
  ret (recentRender sel).

Definition getRecentJobs (args : ToolArgs) : M Response :=
  tryCatch (getRecentJobsTry args)
    (fun error =>
       ret (textResponse ("Failed to get recent jobs: " +:+ errorText error))).

(** *** The [CallToolRequest] handler *)

(** The [TypeError] that [const { ... } = args] throws on an undefined [args],
    in the words of the V8 engine; [property] is the first name of the
    destructuring pattern. *)
Definition destructureFault (property : string) : Thrown :=
  ErrorObj ("Cannot destructure property '" +:+ property +:+
            "' of 'args' as it is undefined.").

(** An operation as the handler calls it ([this.searchJobs(args as any)]).
    A request may come without [arguments]; [args] is then undefined, and the
    operation, past its client check, throws on the destructuring of [args]:
    inside its own [try], and before any request to the client. *)
Definition onArguments (failure property : string) (args : option ToolArgs)
    (operation : ToolArgs -> M Response) : M Response :=
  match args with
  | Some a => operation a
  | None =>
      tryCatch
        (run requireClient ;;
         throw (destructureFault property))
        (fun error => ret (textResponse (failure +:+ errorText error)))
  end.

Definition callTool (name : string) (args : option ToolArgs) : M Response :=
  tryCatch
    (run initializeEACCClient ;;
     do ready <- (fun w => (Returned (eaccClient w), w)) ;;
     if negb ready then throw (ErrorObj "Failed to initialize EACC client")
     else if String.eqb name "get_job_count" then getJobCount
     else if String.eqb name "search_jobs"
          then onArguments "Failed to search jobs: " "status" args searchJobs
     else if String.eqb name "get_job_details"
          then onArguments "Failed to get job details: " "jobId" args getJobDetails
     else if String.eqb name "get_recent_jobs"
          then onArguments "Failed to get recent jobs: " "limit" args getRecentJobs
     else throw (ErrorObj ("Unknown tool: " +:+ name)))
    (fun error => ret (textResponse ("Error: " +:+ errorText error))).

End Server.

(** The jobs a selection carries. *)
Definition selected (sel : Selection) : list Job.t :=
  match sel with
  | EmptyLedger => []
  | Selected _ jobs => jobs
  end.

(** ** A client backed by a ledger snapshot

    The collaborator contract: the count is the ledger's length, a range
    request covers the half-open interval [start, end) of ledger indices, a
    lookup by id returns the job at that index or null, and a range request may
    fault ([faulty] tells which ones do, and with what). *)

Definition ledgerSlice (ledger : list Job.t) (start end_ : Z) : list Job.t :=
  take (Z.to_nat end_ - Z.to_nat start) (drop (Z.to_nat start) ledger).

Definition ledgerClient (ledger : list Job.t) (faulty : Z -> Z -> option Thrown)
    : EACCClient :=
  {| initOutcome := InitOk;
     jobsLength := Returned (Z.of_nat (length ledger));
     jobsRange := fun start end_ =>
       match faulty start end_ with
       | Some e => Raised e
       | None => Returned (ledgerSlice ledger start end_)
       end;
     jobById := fun jobId =>
       Returned (match jobId with
                 | Some i => if i <? 0 then None else ledger !! Z.to_nat i
                 | None => None
                 end) |}.

(** ** Vocabulary for the statements about the scan *)

(** The [k]-th chunk window under the scan bound. *)
Definition window (maxJobsToFetch : Z) (k : nat) : Z * Z :=
  (batchSize * Z.of_nat k,
   Z.min (batchSize * Z.of_nat k + batchSize) maxJobsToFetch).

(** The [n] consecutive chunk windows from the [k]-th on. *)
Definition windows (maxJobsToFetch : Z) (k n : nat) : list (Z * Z) :=
  window maxJobsToFetch <$> seq k n.

(** What a window contributes to [allJobs]: its batch, or nothing when the
    fetch throws. *)
Definition batchOf (client : EACCClient) (win : Z * Z) : list Job.t :=
  match jobsRange client win.1 win.2 with
  | Returned batch => batch
  | Raised _ => []
  end.

Definition gathered (client : EACCClient) (wins : list (Z * Z)) : list Job.t :=
  concat (batchOf client <$> wins).

Definition rangeCalls (wins : list (Z * Z)) : list Call :=
  (fun win => CallRange win.1 win.2) <$> wins.

(** The loop condition [start < maxJobsToFetch && allJobs.length < limit]
    before chunk [k], [allJobs] being what has been accumulated so far. *)
Definition continues (maxJobsToFetch limit : Z) (k : nat) (allJobs : list Job.t)
    : Prop :=
  batchSize * Z.of_nat k < maxJobsToFetch ∧ Z.of_nat (length allJobs) < limit.

(** The world after the calls [cs] have been made. *)
Definition after (cs : list Call) (w : World) : World :=
  {| eaccClient := eaccClient w; calls := calls w ++ cs |}.

(** The world once [this.eaccClient] has been assigned. *)
Definition initialized (w : World) : World :=
  {| eaccClient := true; calls := calls w |}.

(** The requests one operation may make: none, one lookup by the id the
    arguments give, or the count followed by range requests. *)
Definition requestShape (args : option ToolArgs) (cs : list Call) : Prop :=
  cs = [] ∨ (∃ a, args = Some a ∧ cs = [CallById (arg_jobId a)])
  ∨ ∃ wins : list (Z * Z), cs = CallLength :: rangeCalls wins.

(** ** Sample data for the closed instances below *)

Definition sampleJob (i : Z) (st : option string) : Job.t :=
  Job.mk i (Some (100 + i)) (Some "Logo design") None None st
         None None None None None None.

Definition bareJob (i : Z) : Job.t :=
  Job.mk i None None None None None None None None None None None.

(** The ledger of the specification's example: statuses
    [open, closed, open, open, taken] at indices 0..4. *)
Definition fiveJobs : list Job.t :=
  [ sampleJob 0 (Some "open"); sampleJob 1 (Some "closed");
    sampleJob 2 (Some "open"); sampleJob 3 (Some "open");
    sampleJob 4 (Some "taken") ].

(** Twenty-one closed jobs: one more than a chunk holds. *)
Definition closedLedger : list Job.t :=
  (fun i : nat => sampleJob (Z.of_nat i) (Some "closed")) <$> seq 0 21.

(** Forty-five jobs, open at the even indices and closed at the odd ones. *)
Definition mixedLedger : list Job.t :=
  (fun i : nat =>
     sampleJob (Z.of_nat i)
       (if Nat.even i then Some "open" else Some "closed")) <$> seq 0 45.

Definition eightBareJobs : list Job.t := bareJob <$> (Z.of_nat <$> seq 0 8).

(** A world in which the client has been set up and no call was made yet. *)
Definition readyWorld : World := {| eaccClient := true; calls := [] |}.

Definition freshWorld : World := {| eaccClient := false; calls := [] |}.

Definition noFault : Z -> Z -> option Thrown := fun _ _ => None.

(** Every range request that starts at index 0 throws. *)
Definition failFirst : Z -> Z -> option Thrown :=
  fun start _ => if start =? 0 then Some (ErrorObj "rpc timeout") else None.

(** The same client, with a given outcome of its construction and connection. *)
Definition withInit (o : InitOutcome) (client : EACCClient) : EACCClient :=
  {| initOutcome := o;
     jobsLength := jobsLength client;
     jobsRange := jobsRange client;
     jobById := jobById client |}.

(** A client whose count request throws a value that is not an [Error]. *)
Definition brokenCount : EACCClient :=
  {| initOutcome := InitOk;
     jobsLength := Raised (NonError "timeout");
     jobsRange := fun _ _ => Returned [];
     jobById := fun _ => Returned None |}.

Definition searchArgs (status category : option string) (limit : option Z)
    : ToolArgs :=
  {| arg_status := status; arg_category := category; arg_limit := limit;
     arg_jobId := None |}.

(** ** The [ListTools] handler *)




(** A job with a falsy state (the number 0), no worker and no description. *)
Definition detailedJob : Job.t :=
  Job.mk 0 (Some 107) (Some "Translate docs") None None None None
         (Some (Js.Str "Qm123")) (Some (Js.BigInt 5000)) (Some (Js.Num 0))
         (Some (Roles.mk (Some "0xabc") None)) (Some 1700000000).

Definition detailsArgs (jobId : option Z) : ToolArgs :=
  {| arg_status := None; arg_category := None; arg_limit := None;
     arg_jobId := jobId |}.

(** Every range request throws. *)
Definition rangesDown : Z -> Z -> option Thrown :=
  fun _ _ => Some (ErrorObj "rpc down").

(** * Properties *)

(** Two answers that are equal carry the same text. *)
Ltac same_text H := unfold textResponse in H; congruence.

(** ** The scan loop *)

Lemma after_nil w : after [] w = w.
Proof. destruct w; unfold after; simpl. by rewrite app_nil_r. Qed.

Lemma after_after cs1 cs2 w : after cs2 (after cs1 w) = after (cs1 ++ cs2) w.
Proof. unfold after; simpl. by rewrite app_assoc. Qed.

Lemma logged_after c w : logged c w = after [c] w.
Proof. reflexivity. Qed.

Lemma windows_S B k n : windows B k (S n) = window B k :: windows B (S k) n.
Proof. reflexivity. Qed.

Lemma windows_snoc B k n :
  windows B k (S n) = windows B k n ++ [window B (k + n)].
Proof. unfold windows. rewrite seq_S, fmap_app. reflexivity. Qed.

Lemma gathered_cons client win wins :
  gathered client (win :: wins) = batchOf client win ++ gathered client wins.
Proof. reflexivity. Qed.

Lemma gathered_app client wins1 wins2 :
  gathered client (wins1 ++ wins2) = gathered client wins1 ++ gathered client wins2.
Proof. unfold gathered. by rewrite fmap_app, concat_app. Qed.

(** One iteration of the loop body: the window is requested, and its batch is
    appended unless the request throws. *)
Lemma fetch_step client B start allJobs w :
  tryCatch
    (do batch <- getJobs client start (Z.min (start + batchSize) B) ;;
     ret (allJobs ++ batch))
    (fun _ => ret allJobs) w
  = (Returned (allJobs ++ batchOf client (start, Z.min (start + batchSize) B)),
     after [CallRange start (Z.min (start + batchSize) B)] w).
Proof.
  unfold tryCatch, bind, getJobs, ret, batchOf; simpl.
  destruct (jobsRange client start _); simpl; [done|].
  by rewrite app_nil_r.
Qed.

(** The loop runs to completion on the fuel it is given: it requests the
    consecutive windows [k, k+1, ..., k+n-1], the loop condition holds before
    each of them and fails after the last. *)
Lemma fetchLoop_run client B limit fuel : ∀ (k : nat) allJobs w,
  B - batchSize * Z.of_nat k ≤ batchSize * Z.of_nat fuel →
  ∃ n : nat,
    fetchLoop client B limit fuel (batchSize * Z.of_nat k) allJobs w
    = (Returned (allJobs ++ gathered client (windows B k n)),
       after (rangeCalls (windows B k n)) w)
    ∧ (∀ m : nat, (m < n)%nat →
         continues B limit (k + m) (allJobs ++ gathered client (windows B k m)))
    ∧ ¬ continues B limit (k + n) (allJobs ++ gathered client (windows B k n)).
Proof.
  unfold continues, batchSize.
  induction fuel as [|fuel IH]; intros k allJobs w Hfuel.
  - exists 0%nat. simpl. rewrite app_nil_r, after_nil.
    split; [done|]. split; [lia|]. rewrite Nat.add_0_r. lia.
  - simpl fetchLoop.
    destruct ((20 * Z.of_nat k <? B) && (Z.of_nat (length allJobs) <? limit))
      eqn:Hcond.
    + apply andb_true_iff in Hcond as [Hs%Z.ltb_lt Hl%Z.ltb_lt].
      unfold bind at 1. fold batchSize. rewrite fetch_step.
      replace (batchSize * Z.of_nat k + batchSize)
        with (batchSize * Z.of_nat (S k)) by (unfold batchSize; lia).
      unfold batchSize at 1.
      destruct (IH (S k) (allJobs ++ batchOf client (window B k))
                  (after [CallRange (20 * Z.of_nat k)
                            (Z.min (20 * Z.of_nat (S k)) B)] w))
        as (n & Hrun & Hbefore & Hafter); [lia|].
      exists (S n). split; [|split].
      * unfold window at 1 in Hrun. unfold batchSize in Hrun at 1 2 3.
        replace (20 * Z.of_nat k + 20) with (20 * Z.of_nat (S k)) in Hrun by lia.
        unfold batchSize. rewrite Hrun.
        rewrite windows_S, gathered_cons, after_after, app_assoc.
        f_equal. f_equal. unfold rangeCalls. simpl. unfold batchSize.
        by replace (20 * Z.of_nat k + 20) with (20 * Z.of_nat (S k)) by lia.
      * unfold batchSize. intros [|m] Hm.
        { rewrite Nat.add_0_r. cbn [windows seq fmap list_fmap gathered concat].
          rewrite app_nil_r. lia. }
        rewrite windows_S, gathered_cons, app_assoc.
        replace (k + S m)%nat with (S k + m)%nat by lia.
        apply Hbefore. lia.
      * unfold batchSize. rewrite windows_S, gathered_cons, app_assoc.
        replace (k + S n)%nat with (S k + n)%nat by lia. exact Hafter.
    + exists 0%nat. simpl. rewrite app_nil_r, after_nil.
      split; [done|]. split; [lia|]. rewrite Nat.add_0_r.
      apply andb_false_iff in Hcond as [Hs%Z.ltb_ge | Hl%Z.ltb_ge]; lia.
Qed.

Lemma fetchJobs_run client B limit w :
  ∃ n : nat,
    fetchJobs client B limit w
    = (Returned (gathered client (windows B 0 n)),
       after (rangeCalls (windows B 0 n)) w)
    ∧ (∀ m : nat, (m < n)%nat →
         continues B limit m (gathered client (windows B 0 m)))
    ∧ ¬ continues B limit n (gathered client (windows B 0 n)).
Proof.
  destruct (fetchLoop_run client B limit (Z.to_nat B) 0 [] w)
    as (n & Hrun & Hbefore & Hafter).
  { unfold batchSize. lia. }
  exists n. split; [exact Hrun|]. split; [|exact Hafter].
  intros m Hm. exact (Hbefore m Hm).
Qed.

(** The selection phase of [searchJobs] on a non-empty ledger: one count
    request, then the scan, then filtering and truncation. *)
Lemma searchSelect_run client args w total :
  eaccClient w = true →
  jobsLength client = Returned total →
  total ≠ 0 →
  ∃ n : nat,
    searchSelect client args w
    = (Returned
         (Selected total
            (selectJobs (arg_status args) (arg_category args) (limitOf args)
               (gathered client
                  (windows (maxJobsToFetchOf total (limitOf args)) 0 n)))),
       after (CallLength ::
              rangeCalls (windows (maxJobsToFetchOf total (limitOf args)) 0 n)) w)
    ∧ (∀ m : nat, (m < n)%nat →
         continues (maxJobsToFetchOf total (limitOf args)) (limitOf args) m
           (gathered client
              (windows (maxJobsToFetchOf total (limitOf args)) 0 m)))
    ∧ ¬ continues (maxJobsToFetchOf total (limitOf args)) (limitOf args) n
          (gathered client
             (windows (maxJobsToFetchOf total (limitOf args)) 0 n)).
Proof.
  intros Hclient Hlen Htotal.
  destruct (fetchJobs_run client (maxJobsToFetchOf total (limitOf args))
              (limitOf args) (after [CallLength] w))
    as (n & Hrun & Hbefore & Hafter).
  exists n. split; [|split; assumption].
  unfold searchSelect, bind, requireClient, getJobsLength.
  rewrite Hclient, Hlen.
  destruct (Z.eqb_spec total 0) as [|_]; [done|].
  rewrite logged_after, Hrun, after_after. reflexivity.
Qed.

(** ** Slicing, filtering and ledger order *)

Lemma slice0_take {A : Type} (l : list A) (limit : Z) :
  0 ≤ limit → Js.slice0 l limit = take (Z.to_nat limit) l.
Proof.
  intros Hlimit. unfold Js.slice0.
  destruct (Z.ltb_spec limit 0) as [|_]; [lia|].
  destruct (Z.le_gt_cases limit (Z.of_nat (length l))) as [Hle|Hgt].
  - by rewrite Z.min_l.
  - rewrite Z.min_r, Nat2Z.id by lia.
    by rewrite !take_ge by lia.
Qed.

Lemma slice0_sublist {A : Type} (l : list A) (limit : Z) :
  Js.slice0 l limit `sublist_of` l.
Proof. apply sublist_take. Qed.

Lemma slice0_length {A : Type} (l : list A) (limit : Z) :
  0 ≤ limit → Z.of_nat (length (Js.slice0 l limit)) ≤ limit.
Proof.
  intros Hlimit. rewrite slice0_take, length_take by done. lia.
Qed.

Lemma filterByStatus_sublist status jobs : filterByStatus status jobs `sublist_of` jobs.
Proof.
  unfold filterByStatus. destruct (statusActive status); [|done].
  apply sublist_filter.
Qed.

Lemma filterByCategory_sublist category jobs :
  filterByCategory category jobs `sublist_of` jobs.
Proof.
  unfold filterByCategory. destruct (categoryActive category); [|done].
  apply sublist_filter.
Qed.

Lemma applyFilters_sublist status category jobs :
  applyFilters status category jobs `sublist_of` jobs.
Proof.
  unfold applyFilters.
  etrans; [apply filterByCategory_sublist | apply filterByStatus_sublist].
Qed.

Lemma selectJobs_sublist status category limit jobs :
  selectJobs status category limit jobs `sublist_of` jobs.
Proof.
  unfold selectJobs.
  etrans; [apply slice0_sublist | apply applyFilters_sublist].
Qed.

Lemma elem_of_filterByStatus status jobs job :
  job ∈ filterByStatus status jobs ↔
  job ∈ jobs ∧ ∀ s, statusActive status = Some s → statusMatches s job = true.
Proof.
  unfold filterByStatus. destruct (statusActive status) as [s|].
  - rewrite list_elem_of_filter. split.
    + intros [Hm Hin]. split; [done|]. intros s' [= <-]. by apply Is_true_true.
    + intros [Hin Hm]. split; [|done]. apply Is_true_true. by apply Hm.
  - split; [|by intros [? _]]. intros Hin. by split.
Qed.

Lemma elem_of_filterByCategory category jobs job :
  job ∈ filterByCategory category jobs ↔
  job ∈ jobs ∧ ∀ c, categoryActive category = Some c → categoryMatches c job = true.
Proof.
  unfold filterByCategory. destruct (categoryActive category) as [c|].
  - rewrite list_elem_of_filter. split.
    + intros [Hm Hin]. split; [done|]. intros c' [= <-]. by apply Is_true_true.
    + intros [Hin Hm]. split; [|done]. apply Is_true_true. by apply Hm.
  - split; [|by intros [? _]]. intros Hin. by split.
Qed.

Lemma statusActive_Some status s :
  statusActive status = Some s ↔ status = Some s ∧ s ≠ "" ∧ s ≠ "all".
Proof.
  unfold statusActive, Js.truthyStr. destruct status as [s'|].
  - destruct (String.eqb_spec s' ""), (String.eqb_spec s' "all"); simpl;
      (split; [intros [= <-] | intros ([= <-] & ? & ?)]); try done;
      congruence.
  - split; [done | by intros [? _]].
Qed.

Lemma categoryActive_Some category c :
  categoryActive category = Some c ↔ category = Some c ∧ c ≠ "".
Proof.
  unfold categoryActive, Js.truthyStr. destruct category as [c'|].
  - destruct (String.eqb_spec c' ""); simpl;
      (split; [intros [= <-] | intros ([= <-] & ?)]); try done;
      congruence.
  - split; [done | by intros [? _]].
Qed.

Lemma statusMatches_true s job :
  statusMatches s job = true ↔
  ∃ js, Job.status job = Some js ∧ Js.toLowerCase js = Js.toLowerCase s.
Proof.
  unfold statusMatches. destruct (Job.status job) as [js|].
  - destruct (String.eqb_spec (Js.toLowerCase js) (Js.toLowerCase s)) as [Heq|Hne].
    + split; [eauto | done].
    + split; [done | intros (js' & [= <-] & Heq); contradiction].
  - split; [done | by intros (js & ? & _)].
Qed.

(** A sublist sits at strictly increasing positions of the list it is taken
    from. *)
Lemma sublist_positions {A : Type} (l1 l2 : list A) :
  l1 `sublist_of` l2 →
  ∃ positions : list nat,
    StronglySorted lt positions ∧
    Forall2 (fun i x => l2 !! i = Some x) positions l1.
Proof.
  induction 1 as [|x l1 l2 _ (ps & Hsorted & Hat)|x l1 l2 _ (ps & Hsorted & Hat)].
  - exists []. split; constructor.
  - exists (0%nat :: (S <$> ps)). split.
    + constructor.
      * apply (StronglySorted_fmap S lt lt); [lia | done].
      * apply Forall_fmap, Forall_forall. intros; simpl; lia.
    + constructor; [done|]. by apply Forall2_fmap_l.
  - exists (S <$> ps). split.
    + apply (StronglySorted_fmap S lt lt); [lia | done].
    + by apply Forall2_fmap_l.
Qed.

Lemma drop_sublist_mono {A : Type} (l : list A) (i j : nat) :
  (i ≤ j)%nat → drop j l `sublist_of` drop i l.
Proof.
  intros Hij. replace j with (i + (j - i))%nat by lia.
  rewrite <- drop_drop. apply sublist_drop.
Qed.

(** Whatever the scan gathers from a ledger-backed client, failures included,
    is a sublist of the ledger: the windows are consecutive and disjoint. *)
Lemma gathered_ledger_sublist ledger faulty B n : ∀ k : nat,
  gathered (ledgerClient ledger faulty) (windows B k n)
    `sublist_of` drop (20 * k) ledger.
Proof.
  induction n as [|n IH]; intros k.
  - apply sublist_nil_l.
  - rewrite windows_S, gathered_cons.
    set (c := (Z.to_nat (Z.min (batchSize * Z.of_nat k + batchSize) B)
               - Z.to_nat (batchSize * Z.of_nat k))%nat).
    assert (Hc : (c ≤ 20)%nat) by (unfold c, batchSize; lia).
    rewrite <- (take_drop c (drop (20 * k) ledger)).
    apply sublist_app.
    + unfold batchOf, window, ledgerClient; simpl.
      destruct (faulty _ _); [apply sublist_nil_l|].
      unfold ledgerSlice. fold c.
      replace (Z.to_nat (batchSize * Z.of_nat k)) with (20 * k)%nat
        by (unfold batchSize; lia).
      done.
    + etrans; [apply IH|]. rewrite drop_drop.
      apply drop_sublist_mono. lia.
Qed.

(** The answer of [searchJobs] is the rendering of what was selected. *)
Lemma searchJobs_of_select client args w sel w' :
  searchSelect client args w = (Returned sel, w') →
  searchJobs client args w = (Returned (searchRender args sel), w').
Proof. intros Hsel. unfold searchJobs, searchJobsTry,
                      tryCatch, bind. by rewrite Hsel. Qed.

Lemma getRecentJobs_of_select toLocaleString client args w sel w' :
  recentSelect client args w = (Returned sel, w') →
  getRecentJobs toLocaleString client args w
  = (Returned (recentRender toLocaleString sel), w').
Proof. intros Hsel. unfold getRecentJobs, getRecentJobsTry,
                      tryCatch, bind. by rewrite Hsel. Qed.

(** ** [search_jobs]: size, filters and order of the result *)

(** The answer of [searchJobs] over a ledger that is not empty, spelled out:
    without a job, the sentence that echoes the filters in use; with jobs, the
    heading with their number, the ledger's total and the filters in use, an
    empty line, and one numbered line for each job, in the order of the
    list. *)
Lemma searchRender_spelled args total jobs :
  searchRender args (Selected total jobs)
  = textResponse
      (if (length jobs =? 0)%nat
      then
        "No jobs found" +:+
        (if match arg_status args with
            | Some status => negb (String.eqb status "")
            | None => false
            end
            || match arg_category args with
               | Some category => negb (String.eqb category "")
               | None => false
               end
         then
           " matching your criteria (status: " +:+
           match arg_status args with
           | Some status => if String.eqb status "" then "any" else status
           | None => "any"
           end +:+ ", category: " +:+
           match arg_category args with
           | Some category => if String.eqb category "" then "any" else category
           | None => "any"
           end +:+ ")"
         else "") +:+ "."
      else
        "Found " +:+ pretty (Z.of_nat (length jobs)) +:+ " of " +:+
        pretty total +:+ " total jobs" +:+
        match
          (match arg_status args with
           | Some status =>
               if String.eqb status "" || String.eqb status "all" then []
               else ["status: " +:+ status]
           | None => []
           end ++
           match arg_category args with
           | Some category =>
               if String.eqb category "" then [] else ["category: " +:+ category]
           | None => []
           end)%list
        with
        | [] => ""
        | filterSummary =>
            " (filtered by " +:+ String.concat ", " filterSummary +:+ ")"
        end +:+ ":" +:+ String "010" "" +:+ String "010" "" +:+
        String.concat (String "010" "")
          (imap
             (fun (index : nat) (job : Job.t) =>
                pretty (Z.of_nat index + 1) +:+ ". Job #" +:+ pretty (Job.id job) +:+
                ": " +:+
                match Job.title job with
                | Some title => if String.eqb title "" then "Untitled" else title
                | None => "Untitled"
                end +:+
                match Job.status job with
                | Some status => if String.eqb status "" then "" else " - " +:+ status
                | None => ""
                end +:+
                match Job.paymentAmount job with
                | Some (Js.Num n) | Some (Js.BigInt n) =>
                    if n =? 0 then "" else " - " +:+ pretty n +:+ " ETH"
                | Some (Js.Str s) =>
                    if String.eqb s "" then "" else " - " +:+ s +:+ " ETH"
                | None => ""
                end)
             jobs)).
Proof.
  unfold searchRender. destruct (length jobs =? 0)%nat; f_equal.
  - unfold searchEmptyText, Js.truthy, Js.orElse, Js.truthyStr. cbv zeta.
    destruct (arg_status args) as [status|], (arg_category args) as [category|];
      try destruct (String.eqb status ""); try destruct (String.eqb category "");
      reflexivity.
  - unfold searchFoundText, filterSummaryOf, statusActive, categoryActive,
      Js.join, Js.nl, Js.truthyStr. cbv zeta.
    change (ascii_of_nat 10) with "010"%char.
    do 5 f_equal. f_equal.
    + destruct (arg_status args) as [status|], (arg_category args) as [category|];
        try destruct (String.eqb status ""); try destruct (String.eqb status "all");
        try destruct (String.eqb category ""); reflexivity.
    + do 4 f_equal. apply imap_ext. intros index job _.
      unfold searchLine, untitled, statusInfo, paymentInfo, Js.orElse,
        Js.truthyVal, Js.truthyStr, Js.show.
      do 4 f_equal. f_equal; [|f_equal].
      * destruct (Job.title job) as [title|]; [|done].
        by destruct (String.eqb title "").
      * destruct (Job.status job) as [status|]; [|done].
        by destruct (String.eqb status "").
      * destruct (Job.paymentAmount job) as [[n|n|text]|]; [| | |done].
        -- by destruct (n =? 0).
        -- by destruct (n =? 0).
        -- by destruct (String.eqb text "").
Qed.

(** C1. For every limit > 0 and every status/category arguments, over a
    ledger-backed client [search_jobs] answers with the rendering of the jobs
    it selected; these are at most [limit], each is kept by the status filter
    and by the category filter (so its status equals a non-empty status
    argument other than 'all' up to letter case, and it matches a non-empty
    category argument), and they sit at strictly increasing ledger positions,
    that is, in ledger order.  The text of the answer is spelled out: over a
    ledger that is not empty it lists exactly these jobs, one numbered line
    for each and in this order, under a heading with their number. *)
Theorem search_jobs_bounded_filtered_ordered
    (ledger : list Job.t) (faulty : Z -> Z -> option Thrown)
    (args : ToolArgs) (w : World) :
  0 < limitOf args →
  eaccClient w = true →
  ∃ (sel : Selection) (w' : World),
    searchSelect (ledgerClient ledger faulty) args w = (Returned sel, w')
    ∧ searchJobs (ledgerClient ledger faulty) args w
      = (Returned (searchRender args sel), w')
    ∧ (∀ (total : Z) (jobs : list Job.t),
         sel = Selected total jobs →
         fst (searchJobs (ledgerClient ledger faulty) args w)
         = Returned
             (textResponse
                (if (length jobs =? 0)%nat
                then
                  "No jobs found" +:+
                  (if match arg_status args with
                      | Some status => negb (String.eqb status "")
                      | None => false
                      end
                      || match arg_category args with
                         | Some category => negb (String.eqb category "")
                         | None => false
                         end
                   then
                     " matching your criteria (status: " +:+
                     match arg_status args with
                     | Some status => if String.eqb status "" then "any" else status
                     | None => "any"
                     end +:+ ", category: " +:+
                     match arg_category args with
                     | Some category => if String.eqb category "" then "any" else category
                     | None => "any"
                     end +:+ ")"
                   else "") +:+ "."
                else
                  "Found " +:+ pretty (Z.of_nat (length jobs)) +:+ " of " +:+
                  pretty total +:+ " total jobs" +:+
                  match
                    (match arg_status args with
                     | Some status =>
                         if String.eqb status "" || String.eqb status "all" then []
                         else ["status: " +:+ status]
                     | None => []
                     end ++
                     match arg_category args with
                     | Some category =>
                         if String.eqb category "" then [] else ["category: " +:+ category]
                     | None => []
                     end)%list
                  with
                  | [] => ""
                  | filterSummary =>
                      " (filtered by " +:+ String.concat ", " filterSummary +:+ ")"
                  end +:+ ":" +:+ String "010" "" +:+ String "010" "" +:+
                  String.concat (String "010" "")
                    (imap
                       (fun (index : nat) (job : Job.t) =>
                          pretty (Z.of_nat index + 1) +:+ ". Job #" +:+ pretty (Job.id job) +:+
                          ": " +:+
                          match Job.title job with
                          | Some title => if String.eqb title "" then "Untitled" else title
                          | None => "Untitled"
                          end +:+
                          match Job.status job with
                          | Some status => if String.eqb status "" then "" else " - " +:+ status
                          | None => ""
                          end +:+
                          match Job.paymentAmount job with
                          | Some (Js.Num n) | Some (Js.BigInt n) =>
                              if n =? 0 then "" else " - " +:+ pretty n +:+ " ETH"
                          | Some (Js.Str s) =>
                              if String.eqb s "" then "" else " - " +:+ s +:+ " ETH"
                          | None => ""
                          end)
                       jobs))))
    ∧ Z.of_nat (length (selected sel)) ≤ limitOf args
    ∧ (∀ job, job ∈ selected sel →
         job ∈ filterByCategory (arg_category args)
                 (filterByStatus (arg_status args) [job])
         ∧ (∀ s, arg_status args = Some s → s ≠ "" → s ≠ "all" →
                 ∃ js, Job.status job = Some js
                       ∧ Js.toLowerCase js = Js.toLowerCase s)
         ∧ (∀ c, arg_category args = Some c → c ≠ "" →
                 categoryMatches c job = true))
    ∧ selected sel `sublist_of` ledger
    ∧ ∃ positions : list nat,
        StronglySorted lt positions
        ∧ Forall2 (fun i job => ledger !! i = Some job) positions (selected sel).
Proof.
  intros Hlimit Hclient.
  destruct (decide (Z.of_nat (length ledger) = 0)) as [Hempty|Hne].
  - exists EmptyLedger, (after [CallLength] w).
    assert (Hsel : searchSelect (ledgerClient ledger faulty) args w
                   = (Returned EmptyLedger, after [CallLength] w)).
    { unfold searchSelect, bind, requireClient, getJobsLength.
      rewrite Hclient. simpl. rewrite Hempty. reflexivity. }
    split; [exact Hsel|]. split; [by apply searchJobs_of_select|].
    split; [by intros total jobs [=]|].
    split; [simpl; lia|split; [|split]].
    + intros job Hin. by apply elem_of_nil in Hin.
    + apply sublist_nil_l.
    + exists []. split; constructor.
  - destruct (searchSelect_run (ledgerClient ledger faulty) args w
                (Z.of_nat (length ledger)) Hclient eq_refl Hne)
      as (n & Hrun & _ & _).
    eexists _, _. split; [exact Hrun|].
    split; [by apply searchJobs_of_select|].
    split.
    { intros total jobs [= <- <-].
      rewrite (searchJobs_of_select _ _ _ _ _ Hrun).
      cbn [fst]. by rewrite searchRender_spelled. }
    simpl selected.
    assert (Hsub : selectJobs (arg_status args) (arg_category args) (limitOf args)
                     (gathered (ledgerClient ledger faulty)
                        (windows (maxJobsToFetchOf (Z.of_nat (length ledger))
                                    (limitOf args)) 0 n))
                   `sublist_of` ledger).
    { etrans; [apply selectJobs_sublist|].
      apply (gathered_ledger_sublist ledger faulty _ n 0). }
    split; [apply slice0_length; lia|]. split; [|split; [exact Hsub|]].
    + intros job Hin. unfold selectJobs in Hin.
      pose proof (elem_of_sublist _ _ _ Hin (slice0_sublist _ _)) as Hin'.
      clear Hin. unfold applyFilters in Hin'.
      apply elem_of_filterByCategory in Hin' as [Hin' Hcat].
      apply elem_of_filterByStatus in Hin' as [_ Hst].
      split; [|split].
      * apply elem_of_filterByCategory. split; [|exact Hcat].
        apply elem_of_filterByStatus. split; [apply list_elem_of_here|exact Hst].
      * intros s Hs Hs1 Hs2. apply statusMatches_true, Hst.
        by apply statusActive_Some.
      * intros c Hc Hc1. apply Hcat. by apply categoryActive_Some.
    + by apply sublist_positions.
Qed.

Lemma search_jobs_bounded_filtered_ordered_witness :
  0 < limitOf (searchArgs (Some "open") None (Some 2))
  ∧ eaccClient readyWorld = true
  ∧ ∃ (sel : Selection) (w' : World),
      searchSelect (ledgerClient fiveJobs noFault)
        (searchArgs (Some "open") None (Some 2)) readyWorld = (Returned sel, w')
      ∧ searchJobs (ledgerClient fiveJobs noFault)
          (searchArgs (Some "open") None (Some 2)) readyWorld
        = (Returned (searchRender (searchArgs (Some "open") None (Some 2)) sel), w')
      ∧ (∀ (total : Z) (jobs : list Job.t),
           sel = Selected total jobs →
           fst (searchJobs (ledgerClient fiveJobs noFault)
                  (searchArgs (Some "open") None (Some 2)) readyWorld)
           = Returned
               (textResponse
                  (if (length jobs =? 0)%nat
                  then
                    "No jobs found" +:+
                    (if match arg_status 
                        (searchArgs (Some "open") None (Some 2)) with
                        | Some status => negb (String.eqb status "")
                        | None => false
                        end
                        || match arg_category 
                        (searchArgs (Some "open") None (Some 2)) with
                           | Some category => negb (String.eqb category "")
                           | None => false
                           end
                     then
                       " matching your criteria (status: " +:+
                       match arg_status 
                        (searchArgs (Some "open") None (Some 2)) with
                       | Some status => if String.eqb status "" then "any" else status
                       | None => "any"
                       end +:+ ", category: " +:+
                       match arg_category 
                        (searchArgs (Some "open") None (Some 2)) with
                       | Some category => if String.eqb category "" then "any" else category
                       | None => "any"
                       end +:+ ")"
                     else "") +:+ "."
                  else
                    "Found " +:+ pretty (Z.of_nat (length jobs)) +:+ " of " +:+
                    pretty total +:+ " total jobs" +:+
                    match
                      (match arg_status 
                        (searchArgs (Some "open") None (Some 2)) with
                       | Some status =>
                           if String.eqb status "" || String.eqb status "all" then []
                           else ["status: " +:+ status]
                       | None => []
                       end ++
                       match arg_category 
                        (searchArgs (Some "open") None (Some 2)) with
                       | Some category =>
                           if String.eqb category "" then [] else ["category: " +:+ category]
                       | None => []
                       end)%list
                    with
                    | [] => ""
                    | filterSummary =>
                        " (filtered by " +:+ String.concat ", " filterSummary +:+ ")"
                    end +:+ ":" +:+ String "010" "" +:+ String "010" "" +:+
                    String.concat (String "010" "")
                      (imap
                         (fun (index : nat) (job : Job.t) =>
                            pretty (Z.of_nat index + 1) +:+ ". Job #" +:+ pretty (Job.id job) +:+
                            ": " +:+
                            match Job.title job with
                            | Some title => if String.eqb title "" then "Untitled" else title
                            | None => "Untitled"
                            end +:+
                            match Job.status job with
                            | Some status => if String.eqb status "" then "" else " - " +:+ status
                            | None => ""
                            end +:+
                            match Job.paymentAmount job with
                            | Some (Js.Num n) | Some (Js.BigInt n) =>
                                if n =? 0 then "" else " - " +:+ pretty n +:+ " ETH"
                            | Some (Js.Str s) =>
                                if String.eqb s "" then "" else " - " +:+ s +:+ " ETH"
                            | None => ""
                            end)
                         jobs))))
      ∧ Z.of_nat (length (selected sel))
        ≤ limitOf (searchArgs (Some "open") None (Some 2))
      ∧ (∀ job, job ∈ selected sel →
           job ∈ filterByCategory
                   (arg_category (searchArgs (Some "open") None (Some 2)))
                   (filterByStatus
                      (arg_status (searchArgs (Some "open") None (Some 2))) [job])
           ∧ (∀ s, arg_status (searchArgs (Some "open") None (Some 2)) = Some s →
                 s ≠ "" → s ≠ "all" →
                 ∃ js, Job.status job = Some js
                       ∧ Js.toLowerCase js = Js.toLowerCase s)
           ∧ (∀ c, arg_category (searchArgs (Some "open") None (Some 2)) = Some c →
                   c ≠ "" → categoryMatches c job = true))
      ∧ selected sel `sublist_of` fiveJobs
      ∧ ∃ positions : list nat,
          StronglySorted lt positions
          ∧ Forall2 (fun i job => fiveJobs !! i = Some job) positions (selected sel).
Proof.
  split; [reflexivity|]. split; [reflexivity|].
  apply (search_jobs_bounded_filtered_ordered fiveJobs noFault
           (searchArgs (Some "open") None (Some 2)) readyWorld);
    reflexivity.
Defined.

(** The specification's example: jobs 0..4 with statuses
    [open, closed, open, open, taken]; a search for "open" with limit 2 returns
    the jobs at indices 0 and 2, in that order. *)
Example search_open_limit_2 :
  fst (searchSelect (ledgerClient fiveJobs noFault)
         (searchArgs (Some "open") None (Some 2)) readyWorld)
  = Returned (Selected 5 [sampleJob 0 (Some "open"); sampleJob 2 (Some "open")]).
Proof. vm_compute. reflexivity. Qed.

Example search_open_limit_2_text :
  fst (searchJobs (ledgerClient fiveJobs noFault)
         (searchArgs (Some "open") None (Some 2)) readyWorld)
  = Returned
      (textResponse
         ("Found 2 of 5 total jobs (filtered by status: open):" +:+
          String "010" "" +:+ String "010" "" +:+
          "1. Job #0: Logo design - open" +:+ String "010" "" +:+
          "2. Job #2: Logo design - open")).
Proof. vm_compute. reflexivity. Qed.

(** ** [search_jobs]: the shape of the scan *)

Lemma rangeCalls_windows B n :
  rangeCalls (windows B 0 n)
  = (fun k : nat =>
       CallRange (20 * Z.of_nat k) (Z.min (20 * Z.of_nat k + 20) B)) <$> seq 0 n.
Proof. unfold rangeCalls, windows. by rewrite <- list_fmap_compose. Qed.

Lemma windows_lookup B n k :
  (k < n)%nat →
  windows B 0 n !! k = Some (20 * Z.of_nat k, Z.min (20 * Z.of_nat k + 20) B).
Proof.
  intros Hk. unfold windows. rewrite list_lookup_fmap, lookup_seq_lt by done.
  reflexivity.
Qed.

(** C2, as stated, fails.  With 21 closed jobs, a search for "open" with
    limit 7 has the scan bound min(21, 21) = 21.  The scan requests the single
    window [0, 20) and stops, although the bound is not reached (index 20 is
    never requested) and not one post-filter match has been accumulated: the
    loop counts the jobs fetched, not the jobs that pass the filters. *)
Lemma search_scan_stops_on_fetched_count :
  maxJobsToFetchOf 21 7 = 21
  ∧ snd (searchSelect (ledgerClient closedLedger noFault)
           (searchArgs (Some "open") None (Some 7)) readyWorld)
    = after [CallLength; CallRange 0 20] readyWorld
  ∧ length (gathered (ledgerClient closedLedger noFault) [(0, 20)]) = 20%nat
  ∧ length (applyFilters (Some "open") None
              (gathered (ledgerClient closedLedger noFault) [(0, 20)])) = 0%nat
  ∧ ¬ (maxJobsToFetchOf 21 7 ≤ 20 * 1
       ∨ 7 ≤ Z.of_nat
               (length (applyFilters (Some "open") None
                          (gathered (ledgerClient closedLedger noFault)
                             [(0, 20)])))).
Proof.
  split; [reflexivity|]. split; [vm_compute; reflexivity|].
  split; [vm_compute; reflexivity|]. split; [vm_compute; reflexivity|].
  intros [Hbound|Hcount].
  - vm_compute in Hbound. congruence.
  - vm_compute in Hcount. congruence.
Qed.

(** C2, amended.  On a non-empty ledger [search_jobs] asks for the count
    once, then requests the consecutive windows [20k, min(20k+20, bound)) for
    k = 0 .. n-1, where bound = min(total, limit*3); a window that throws adds
    nothing.  Before each request the start is below the bound and fewer than
    [limit] jobs have been accumulated, counted before any filtering; after the
    last one the bound is reached or at least [limit] fetched jobs are
    accumulated.  Only then are the filters applied and the result truncated
    to [limit]. *)
Theorem search_jobs_scan
    (client : EACCClient) (args : ToolArgs) (w : World) (total : Z) :
  0 < limitOf args →
  eaccClient w = true →
  jobsLength client = Returned total →
  total ≠ 0 →
  ∃ (n : nat) (allJobs : list Job.t),
    searchSelect client args w
    = (Returned
         (Selected total
            (take (Z.to_nat (limitOf args))
               (filterByCategory (arg_category args)
                  (filterByStatus (arg_status args) allJobs)))),
       after (CallLength ::
              ((fun k : nat =>
                  CallRange (20 * Z.of_nat k)
                    (Z.min (20 * Z.of_nat k + 20)
                       (Z.min total (limitOf args * 3)))) <$> seq 0 n)) w)
    ∧ allJobs = gathered client (windows (Z.min total (limitOf args * 3)) 0 n)
    ∧ (∀ m : nat, (m < n)%nat →
         20 * Z.of_nat m < Z.min total (limitOf args * 3)
         ∧ Z.of_nat (length (gathered client
                               (windows (Z.min total (limitOf args * 3)) 0 m)))
           < limitOf args)
    ∧ (Z.min total (limitOf args * 3) ≤ 20 * Z.of_nat n
       ∨ limitOf args ≤ Z.of_nat (length allJobs)).
Proof.
  intros Hlimit Hclient Hlen Htotal.
  destruct (searchSelect_run client args w total Hclient Hlen Htotal)
    as (n & Hrun & Hbefore & Hafter).
  unfold maxJobsToFetchOf in *.
  exists n, (gathered client (windows (Z.min total (limitOf args * 3)) 0 n)).
  split; [|split; [reflexivity|split]].
  - rewrite Hrun. unfold selectJobs, applyFilters.
    rewrite slice0_take by lia. by rewrite rangeCalls_windows.
  - intros m Hm. destruct (Hbefore m Hm) as [H1 H2].
    unfold batchSize in H1. done.
  - unfold continues, batchSize in Hafter. lia.
Qed.

Lemma search_jobs_scan_witness :
  0 < limitOf (searchArgs (Some "open") None (Some 7))
  ∧ eaccClient readyWorld = true
  ∧ jobsLength (ledgerClient closedLedger noFault) = Returned 21
  ∧ 21 ≠ 0
  ∧ ∃ (n : nat) (allJobs : list Job.t),
      searchSelect (ledgerClient closedLedger noFault)
        (searchArgs (Some "open") None (Some 7)) readyWorld
      = (Returned
           (Selected 21
              (take (Z.to_nat (limitOf (searchArgs (Some "open") None (Some 7))))
                 (filterByCategory None (filterByStatus (Some "open") allJobs)))),
         after (CallLength ::
                ((fun k : nat =>
                    CallRange (20 * Z.of_nat k)
                      (Z.min (20 * Z.of_nat k + 20)
                         (Z.min 21
                            (limitOf (searchArgs (Some "open") None (Some 7)) * 3))))
                   <$> seq 0 n)) readyWorld)
      ∧ allJobs
        = gathered (ledgerClient closedLedger noFault)
            (windows
               (Z.min 21 (limitOf (searchArgs (Some "open") None (Some 7)) * 3))
               0 n)
      ∧ (∀ m : nat, (m < n)%nat →
           20 * Z.of_nat m
           < Z.min 21 (limitOf (searchArgs (Some "open") None (Some 7)) * 3)
           ∧ Z.of_nat
               (length
                  (gathered (ledgerClient closedLedger noFault)
                     (windows
                        (Z.min 21
                           (limitOf (searchArgs (Some "open") None (Some 7)) * 3))
                        0 m)))
             < limitOf (searchArgs (Some "open") None (Some 7)))
      ∧ (Z.min 21 (limitOf (searchArgs (Some "open") None (Some 7)) * 3)
         ≤ 20 * Z.of_nat n
         ∨ limitOf (searchArgs (Some "open") None (Some 7))
           ≤ Z.of_nat (length allJobs)).
Proof.
  split; [reflexivity|]. split; [reflexivity|]. split; [reflexivity|].
  split; [lia|].
  apply (search_jobs_scan (ledgerClient closedLedger noFault)
           (searchArgs (Some "open") None (Some 7)) readyWorld 21);
    [reflexivity | reflexivity | reflexivity | lia].
Defined.

(** ** The status filter *)

(** C5, as stated, fails on the empty string: it is neither 'all' nor absent,
    yet the filter keeps a job whose status is "open", which does not equal
    the empty string in any letter case. *)
Lemma status_filter_empty_string_keeps_all :
  sampleJob 0 (Some "open") ∈ filterByStatus (Some "") [sampleJob 0 (Some "open")]
  ∧ Some "" ≠ (None : option string)
  ∧ Some "" ≠ Some "all"
  ∧ ¬ (∃ js, Job.status (sampleJob 0 (Some "open")) = Some js
             ∧ Js.toLowerCase js = Js.toLowerCase "").
Proof.
  split; [vm_compute; left|]. split; [done|]. split; [done|].
  intros (js & [= <-] & Heq). discriminate Heq.
Qed.

(** C5, amended.  The status filter keeps a job if and only if the status
    argument is absent, the empty string or 'all', or the job has a status that
    equals the argument once both are put in lower case.  So a job without a
    status passes no filter given by a non-empty argument other than 'all'. *)
Theorem status_filter_keeps
    (status : option string) (jobs : list Job.t) (job : Job.t) :
  (job ∈ filterByStatus status jobs ↔
   job ∈ jobs
   ∧ (status = None ∨ status = Some "" ∨ status = Some "all"
      ∨ ∃ s js, status = Some s ∧ Job.status job = Some js
                ∧ Js.toLowerCase js = Js.toLowerCase s))
  ∧ (∀ s, status = Some s → s ≠ "" → s ≠ "all" → Job.status job = None →
       job ∉ filterByStatus status jobs).
Proof.
  assert (Hiff : job ∈ filterByStatus status jobs ↔
                 job ∈ jobs
                 ∧ (status = None ∨ status = Some "" ∨ status = Some "all"
                    ∨ ∃ s js, status = Some s ∧ Job.status job = Some js
                              ∧ Js.toLowerCase js = Js.toLowerCase s)).
  { rewrite elem_of_filterByStatus. split; intros [Hin Hkeep]; (split; [done|]).
    - destruct status as [s|]; [|by left].
      destruct (decide (s = "")) as [->|Hs1]; [by right; left|].
      destruct (decide (s = "all")) as [->|Hs2]; [by right; right; left|].
      right; right; right.
      destruct (proj1 (statusMatches_true s job)) as (js & Hjs & Heq).
      { apply Hkeep. by apply statusActive_Some. }
      by exists s, js.
    - intros s (-> & Hs1 & Hs2)%statusActive_Some.
      destruct Hkeep as [[=]|[[=]|[[=]|(s' & js & [= <-] & Hjs & Heq)]]];
        try congruence.
      apply statusMatches_true. by exists js. }
  split; [exact Hiff|].
  intros s -> Hs1 Hs2 Hnone [_ Hkeep]%Hiff.
  destruct Hkeep as [[=]|[[=]|[[=]|(s' & js & _ & Hjs & _)]]]; congruence.
Qed.

Lemma status_filter_keeps_witness :
  (bareJob 1 ∈ filterByStatus (Some "open") [sampleJob 0 (Some "OPEN"); bareJob 1] ↔
   bareJob 1 ∈ [sampleJob 0 (Some "OPEN"); bareJob 1]
   ∧ (Some "open" = None ∨ Some "open" = Some "" ∨ Some "open" = Some "all"
      ∨ ∃ s js, Some "open" = Some s ∧ Job.status (bareJob 1) = Some js
                ∧ Js.toLowerCase js = Js.toLowerCase s))
  ∧ (∀ s, Some "open" = Some s → s ≠ "" → s ≠ "all" →
       Job.status (bareJob 1) = None →
       bareJob 1 ∉ filterByStatus (Some "open") [sampleJob 0 (Some "OPEN"); bareJob 1]).
Proof.
  exact (status_filter_keeps (Some "open")
           [sampleJob 0 (Some "OPEN"); bareJob 1] (bareJob 1)).
Defined.

(** Letter case is ignored, and a job without a status is dropped. *)
Example status_filter_ignores_case :
  filterByStatus (Some "open") [sampleJob 0 (Some "OPEN"); bareJob 1]
  = [sampleJob 0 (Some "OPEN")].
Proof. vm_compute. reflexivity. Qed.

(** ** [get_job_count] *)

Lemma getJobCount_run client w (count : Z) :
  eaccClient w = true →
  jobsLength client = Returned count →
  getJobCount client w
  = (Returned (textResponse ("There are currently " +:+ pretty count +:+
                             " jobs on the EACC marketplace.")),
     after [CallLength] w).
Proof.
  intros Hclient Hlen.
  unfold getJobCount, getJobCountTry,
    tryCatch, bind, requireClient, getJobsLength.
  by rewrite Hclient, Hlen.
Qed.

(** C9, as stated, fails: the sentence the code produces names the EACC
    marketplace.  For a total of 559 the answer is not the claimed text. *)
Lemma job_count_text_names_eacc :
  fst (getJobCount (ledgerClient (bareJob <$> (Z.of_nat <$> seq 0 559)) noFault)
         readyWorld)
  = Returned (textResponse "There are currently 559 jobs on the EACC marketplace.")
  ∧ "There are currently 559 jobs on the EACC marketplace."
    ≠ "There are currently 559 jobs on the marketplace.".
Proof. split; [vm_compute; reflexivity | discriminate]. Qed.

(** C9, amended.  For a ledger total N reported by the client at call time,
    [get_job_count] makes that one request and answers exactly
    "There are currently <N> jobs on the EACC marketplace.", N in decimal. *)
Theorem get_job_count_text (client : EACCClient) (w : World) (N : Z) :
  eaccClient w = true →
  jobsLength client = Returned N →
  ∃ w', getJobCount client w
        = (Returned (textResponse ("There are currently " +:+ pretty N +:+
                                   " jobs on the EACC marketplace.")), w')
        ∧ calls w' = calls w ++ [CallLength].
Proof.
  intros Hclient Hlen. exists (after [CallLength] w).
  split; [by apply getJobCount_run | reflexivity].
Qed.

Lemma get_job_count_text_witness :
  eaccClient readyWorld = true
  ∧ jobsLength (ledgerClient fiveJobs noFault) = Returned 5
  ∧ ∃ w', getJobCount (ledgerClient fiveJobs noFault) readyWorld
          = (Returned (textResponse ("There are currently " +:+ pretty 5 +:+
                                     " jobs on the EACC marketplace.")), w')
          ∧ calls w' = calls readyWorld ++ [CallLength].
Proof.
  split; [reflexivity|]. split; [reflexivity|].
  apply (get_job_count_text (ledgerClient fiveJobs noFault) readyWorld 5);
    reflexivity.
Defined.

(** ** The empty ledger *)

(** C7.  When the client reports a total of 0, [search_jobs] and
    [get_recent_jobs] both answer with the text
    "No jobs found on the marketplace." after that single count request:
    neither a failure text nor a rendered list of no jobs. *)
Theorem empty_ledger_no_jobs_found
    (toLocaleString : Z -> string) (client : EACCClient)
    (args : ToolArgs) (w : World) :
  eaccClient w = true →
  jobsLength client = Returned 0 →
  searchJobs client args w
  = (Returned (textResponse "No jobs found on the marketplace."),
     after [CallLength] w)
  ∧ getRecentJobs toLocaleString client args w
    = (Returned (textResponse "No jobs found on the marketplace."),
       after [CallLength] w).
Proof.
  intros Hclient Hlen. split.
  - unfold searchJobs, searchJobsTry,
      tryCatch, bind, searchSelect, bind, requireClient,
      getJobsLength.
    by rewrite Hclient, Hlen.
  - unfold getRecentJobs, getRecentJobsTry,
      tryCatch, bind, recentSelect, bind, requireClient,
      getJobsLength.
    by rewrite Hclient, Hlen.
Qed.

Lemma empty_ledger_no_jobs_found_witness :
  eaccClient readyWorld = true
  ∧ jobsLength (ledgerClient [] noFault) = Returned 0
  ∧ searchJobs (ledgerClient [] noFault) (searchArgs (Some "open") None None)
      readyWorld
    = (Returned (textResponse "No jobs found on the marketplace."),
       after [CallLength] readyWorld)
  ∧ getRecentJobs pretty (ledgerClient [] noFault)
      (searchArgs (Some "open") None None) readyWorld
    = (Returned (textResponse "No jobs found on the marketplace."),
       after [CallLength] readyWorld).
Proof.
  split; [reflexivity|]. split; [reflexivity|].
  apply (empty_ledger_no_jobs_found pretty (ledgerClient [] noFault)
           (searchArgs (Some "open") None None) readyWorld);
    reflexivity.
Defined.

(** ** [get_recent_jobs] *)

(** The selection phase of [getRecentJobs] on a non-empty ledger: one count
    request and one range request, whose outcome decides the result. *)
Lemma recentSelect_run client args w total :
  eaccClient w = true →
  jobsLength client = Returned total →
  total ≠ 0 →
  recentSelect client args w
  = (match jobsRange client (Z.max 0 (total - limitOf args)) total with
     | Returned recentJobs => Returned (Selected total (reverse recentJobs))
     | Raised e => Raised e
     end,
     after [CallLength; CallRange (Z.max 0 (total - limitOf args)) total] w).
Proof.
  intros Hclient Hlen Htotal.
  unfold recentSelect, bind, requireClient, getJobsLength, getJobs.
  rewrite Hclient, Hlen.
  destruct (Z.eqb_spec total 0) as [|_]; [done|].
  rewrite !logged_after, after_after.
  by destruct (jobsRange client _ _).
Qed.

(** The last [limit] jobs of a ledger, as one range request returns them. *)
Lemma ledgerSlice_tail ledger (limit : Z) :
  0 < limit →
  ledgerSlice ledger (Z.max 0 (Z.of_nat (length ledger) - limit))
    (Z.of_nat (length ledger))
  = drop (length ledger - Z.to_nat limit) ledger.
Proof.
  intros Hlimit. unfold ledgerSlice.
  replace (Z.to_nat (Z.max 0 (Z.of_nat (length ledger) - limit)))
    with (length ledger - Z.to_nat limit)%nat by lia.
  rewrite Nat2Z.id. apply take_ge. rewrite length_drop. lia.
Qed.

Lemma reverse_drop_lookup {A : Type} (l : list A) (d k : nat) :
  (k < length l - d)%nat →
  reverse (drop d l) !! k = l !! (length l - 1 - k)%nat.
Proof.
  intros Hk. rewrite reverse_lookup by (rewrite length_drop; lia).
  rewrite lookup_drop, length_drop. f_equal. lia.
Qed.

Lemma recent_ledger_run ledger faulty args w :
  0 < limitOf args →
  (1 ≤ length ledger)%nat →
  eaccClient w = true →
  faulty (Z.max 0 (Z.of_nat (length ledger) - limitOf args))
    (Z.of_nat (length ledger)) = None →
  recentSelect (ledgerClient ledger faulty) args w
  = (Returned
       (Selected (Z.of_nat (length ledger))
          (reverse (drop (length ledger - Z.to_nat (limitOf args)) ledger))),
     after [CallLength;
            CallRange (Z.max 0 (Z.of_nat (length ledger) - limitOf args))
              (Z.of_nat (length ledger))] w).
Proof.
  intros Hlimit Hlen Hclient Hok.
  rewrite (recentSelect_run _ args w (Z.of_nat (length ledger)))
    by (done || simpl; lia).
  simpl. by rewrite Hok, ledgerSlice_tail.
Qed.

(** The text of a non-empty answer of [getRecentJobs], spelled out: the
    heading with the number of jobs, an empty line, and one numbered line for
    each job, in the order of the list. *)
Lemma recentFoundText_spelled toLocaleString sortedJobs :
  recentFoundText toLocaleString sortedJobs
  = "Most recent jobs (" +:+ pretty (Z.of_nat (length sortedJobs)) +:+
    " found):" +:+ String "010" "" +:+ String "010" "" +:+
    String.concat (String "010" "")
      (imap
         (fun (index : nat) (job : Job.t) =>
            pretty (Z.of_nat index + 1) +:+ ". Escrow ID " +:+
            match Job.escrowId job with
            | Some escrowId => pretty escrowId
            | None => "undefined"
            end +:+ ": " +:+
            match Job.title job with
            | Some title => if String.eqb title "" then "Untitled" else title
            | None => "Untitled"
            end +:+
            match Job.timestamp job with
            | Some ts => if ts =? 0 then "" else " - " +:+ toLocaleString (ts * 1000)
            | None => ""
            end)
         sortedJobs).
Proof.
  unfold recentFoundText, Js.join, Js.nl. cbv zeta.
  change (ascii_of_nat 10) with "010"%char. do 6 f_equal. apply imap_ext. intros index job _.
  unfold recentLine, untitled, timeInfo, Js.showOptZ, Js.orElse, Js.truthyStr.
  do 4 f_equal.
  destruct (Job.title job) as [title|]; [|done].
  by destruct (String.eqb title "").
Qed.

(** C3.  For every limit > 0 and every ledger of total ≥ 1 jobs,
    [get_recent_jobs] asks for the count and then requests exactly the window
    [max(0, total-limit), total).  When that request succeeds, the answer
    lists the jobs of that window by descending ledger index, one numbered
    line for each, under a heading with their number: the job on line k+1 is
    the ledger's job at index total-1-k, for every k below the window's size;
    the job on the first line is the job at index total-1. *)
Theorem get_recent_jobs_window_newest_first
    (toLocaleString : Z -> string) (ledger : list Job.t)
    (faulty : Z -> Z -> option Thrown) (args : ToolArgs) (w : World) :
  0 < limitOf args →
  (1 ≤ length ledger)%nat →
  eaccClient w = true →
  calls (snd (getRecentJobs toLocaleString (ledgerClient ledger faulty) args w))
  = calls w ++
    [CallLength;
     CallRange (Z.max 0 (Z.of_nat (length ledger) - limitOf args))
       (Z.of_nat (length ledger))]
  ∧ (faulty (Z.max 0 (Z.of_nat (length ledger) - limitOf args))
       (Z.of_nat (length ledger)) = None →
     ∃ sortedJobs : list Job.t,
       fst (getRecentJobs toLocaleString (ledgerClient ledger faulty) args w)
       = Returned
           (textResponse
              ("Most recent jobs (" +:+ pretty (Z.of_nat (length sortedJobs)) +:+
              " found):" +:+ String "010" "" +:+ String "010" "" +:+
              String.concat (String "010" "")
                (imap
                   (fun (index : nat) (job : Job.t) =>
                      pretty (Z.of_nat index + 1) +:+ ". Escrow ID " +:+
                      match Job.escrowId job with
                      | Some escrowId => pretty escrowId
                      | None => "undefined"
                      end +:+ ": " +:+
                      match Job.title job with
                      | Some title => if String.eqb title "" then "Untitled" else title
                      | None => "Untitled"
                      end +:+
                      match Job.timestamp job with
                      | Some ts => if ts =? 0 then "" else " - " +:+ toLocaleString (ts * 1000)
                      | None => ""
                      end)
                   sortedJobs)))
       ∧ Z.of_nat (length sortedJobs)
         = Z.of_nat (length ledger)
           - Z.max 0 (Z.of_nat (length ledger) - limitOf args)
       ∧ (∀ k : nat, (k < length sortedJobs)%nat →
            sortedJobs !! k = ledger !! (length ledger - 1 - k)%nat)
       ∧ (∃ newest, sortedJobs !! 0%nat = Some newest
                    ∧ ledger !! (length ledger - 1)%nat = Some newest)).
Proof.
  intros Hlimit Hlen Hclient. split.
  - unfold getRecentJobs, getRecentJobsTry, tryCatch, bind.
    rewrite (recentSelect_run _ args w (Z.of_nat (length ledger)))
      by (done || simpl; lia).
    by destruct (jobsRange _ _ _).
  - intros Hok.
    exists (reverse (drop (length ledger - Z.to_nat (limitOf args)) ledger)).
    assert (Hsize : length (reverse (drop (length ledger - Z.to_nat (limitOf args))
                                       ledger))
                    = (length ledger - (length ledger - Z.to_nat (limitOf args)))%nat)
      by (by rewrite length_reverse, length_drop).
    split; [|split; [lia|split]].
    + rewrite (getRecentJobs_of_select _ _ _ _ _ _
                 (recent_ledger_run ledger faulty args w Hlimit Hlen Hclient Hok)).
      cbn [fst recentRender].
      destruct (Nat.eqb_spec
                  (length (reverse (drop (length ledger - Z.to_nat (limitOf args))
                                      ledger))) 0) as [Hzero|_]; [lia|].
      by rewrite recentFoundText_spelled.
    + intros k Hk. apply reverse_drop_lookup. lia.
    + destruct (lookup_lt_is_Some_2 ledger (length ledger - 1)) as [newest Hnewest];
        [lia|].
      exists newest. split; [|done].
      rewrite reverse_drop_lookup by lia.
      by replace (length ledger - 1 - 0)%nat with (length ledger - 1)%nat by lia.
Qed.

Lemma get_recent_jobs_window_newest_first_witness :
  0 < limitOf (searchArgs None None (Some 2))
  ∧ (1 ≤ length fiveJobs)%nat
  ∧ eaccClient readyWorld = true
  ∧ calls (snd (getRecentJobs pretty (ledgerClient fiveJobs noFault)
                  (searchArgs None None (Some 2)) readyWorld))
    = calls readyWorld ++
      [CallLength;
       CallRange
         (Z.max 0 (Z.of_nat (length fiveJobs)
                   - limitOf (searchArgs None None (Some 2))))
         (Z.of_nat (length fiveJobs))]
  ∧ (noFault
       (Z.max 0 (Z.of_nat (length fiveJobs)
                 - limitOf (searchArgs None None (Some 2))))
       (Z.of_nat (length fiveJobs)) = None →
     ∃ sortedJobs : list Job.t,
       fst (getRecentJobs pretty (ledgerClient fiveJobs noFault)
              (searchArgs None None (Some 2)) readyWorld)
       = Returned
           (textResponse
              ("Most recent jobs (" +:+ pretty (Z.of_nat (length sortedJobs)) +:+
              " found):" +:+ String "010" "" +:+ String "010" "" +:+
              String.concat (String "010" "")
                (imap
                   (fun (index : nat) (job : Job.t) =>
                      pretty (Z.of_nat index + 1) +:+ ". Escrow ID " +:+
                      match Job.escrowId job with
                      | Some escrowId => pretty escrowId
                      | None => "undefined"
                      end +:+ ": " +:+
                      match Job.title job with
                      | Some title => if String.eqb title "" then "Untitled" else title
                      | None => "Untitled"
                      end +:+
                      match Job.timestamp job with
                      | Some ts => if ts =? 0 then "" else " - " +:+ pretty (ts * 1000)
                      | None => ""
                      end)
                   sortedJobs)))
       ∧ Z.of_nat (length sortedJobs)
         = Z.of_nat (length fiveJobs)
           - Z.max 0 (Z.of_nat (length fiveJobs)
                      - limitOf (searchArgs None None (Some 2)))
       ∧ (∀ k : nat, (k < length sortedJobs)%nat →
            sortedJobs !! k = fiveJobs !! (length fiveJobs - 1 - k)%nat)
       ∧ (∃ newest, sortedJobs !! 0%nat = Some newest
                    ∧ fiveJobs !! (length fiveJobs - 1)%nat = Some newest)).
Proof.
  split; [reflexivity|]. split; [simpl; lia|]. split; [reflexivity|].
  apply (get_recent_jobs_window_newest_first pretty fiveJobs noFault
           (searchArgs None None (Some 2)) readyWorld);
    [reflexivity | simpl; lia | reflexivity].
Defined.

(** With five jobs and limit 2 the window is [3, 5) and the answer lists job
    4, then job 3. *)
Example recent_two_of_five :
  recentSelect (ledgerClient fiveJobs noFault) (searchArgs None None (Some 2))
    readyWorld
  = (Returned (Selected 5 [sampleJob 4 (Some "taken"); sampleJob 3 (Some "open")]),
     after [CallLength; CallRange 3 5] readyWorld).
Proof. vm_compute. reflexivity. Qed.

Example recent_two_of_five_text :
  getRecentJobs pretty (ledgerClient fiveJobs noFault)
    (searchArgs None None (Some 2)) readyWorld
  = (Returned
       (textResponse
          ("Most recent jobs (2 found):" +:+ String "010" "" +:+ String "010" "" +:+
           "1. Escrow ID 104: Logo design" +:+ String "010" "" +:+
           "2. Escrow ID 103: Logo design")),
     after [CallLength; CallRange 3 5] readyWorld).
Proof. vm_compute. reflexivity. Qed.

(** C10.  For every limit > 0 and every ledger of total ≥ 1 jobs, when the
    single range request succeeds [get_recent_jobs] answers with the list of
    exactly min(limit, total) jobs: the heading gives that number, the lines
    under it are one for each of the jobs selected, and these are the last
    min(limit, total) jobs of the ledger, the window it fetched, with nothing
    dropped afterwards. *)
Theorem get_recent_jobs_count
    (toLocaleString : Z -> string) (ledger : list Job.t)
    (faulty : Z -> Z -> option Thrown) (args : ToolArgs) (w : World) :
  0 < limitOf args →
  (1 ≤ length ledger)%nat →
  eaccClient w = true →
  faulty (Z.max 0 (Z.of_nat (length ledger) - limitOf args))
    (Z.of_nat (length ledger)) = None →
  ∃ sortedJobs : list Job.t,
    fst (getRecentJobs toLocaleString (ledgerClient ledger faulty) args w)
    = Returned
        (textResponse
           ("Most recent jobs (" +:+ pretty (Z.min (limitOf args) (Z.of_nat (length ledger))) +:+
           " found):" +:+ String "010" "" +:+ String "010" "" +:+
           String.concat (String "010" "")
             (imap
                (fun (index : nat) (job : Job.t) =>
                   pretty (Z.of_nat index + 1) +:+ ". Escrow ID " +:+
                   match Job.escrowId job with
                   | Some escrowId => pretty escrowId
                   | None => "undefined"
                   end +:+ ": " +:+
                   match Job.title job with
                   | Some title => if String.eqb title "" then "Untitled" else title
                   | None => "Untitled"
                   end +:+
                   match Job.timestamp job with
                   | Some ts => if ts =? 0 then "" else " - " +:+ toLocaleString (ts * 1000)
                   | None => ""
                   end)
                sortedJobs)))
    ∧ fst (recentSelect (ledgerClient ledger faulty) args w)
      = Returned (Selected (Z.of_nat (length ledger)) sortedJobs)
    ∧ Z.of_nat (length sortedJobs)
      = Z.min (limitOf args) (Z.of_nat (length ledger))
    ∧ reverse sortedJobs = drop (length ledger - length sortedJobs) ledger.
Proof.
  intros Hlimit Hlen Hclient Hok.
  pose proof (recent_ledger_run ledger faulty args w Hlimit Hlen Hclient Hok)
    as Hrun.
  exists (reverse (drop (length ledger - Z.to_nat (limitOf args)) ledger)).
  assert (Hsize : length (reverse (drop (length ledger - Z.to_nat (limitOf args))
                                     ledger))
                  = (length ledger - (length ledger - Z.to_nat (limitOf args)))%nat)
    by (by rewrite length_reverse, length_drop).
  split; [|split; [by rewrite Hrun | split; [lia|]]].
  - rewrite (getRecentJobs_of_select _ _ _ _ _ _ Hrun).
    cbn [fst recentRender].
    destruct (Nat.eqb_spec
                (length (reverse (drop (length ledger - Z.to_nat (limitOf args))
                                    ledger))) 0) as [Hzero|_]; [lia|].
    rewrite recentFoundText_spelled.
    by replace (Z.min (limitOf args) (Z.of_nat (length ledger)))
      with (Z.of_nat
              (length (reverse (drop (length ledger - Z.to_nat (limitOf args))
                                  ledger)))) by lia.
  - rewrite reverse_involutive, Hsize. f_equal. lia.
Qed.

Lemma get_recent_jobs_count_witness :
  0 < limitOf (searchArgs None None (Some 10))
  ∧ (1 ≤ length fiveJobs)%nat
  ∧ eaccClient readyWorld = true
  ∧ noFault (Z.max 0 (Z.of_nat (length fiveJobs)
                      - limitOf (searchArgs None None (Some 10))))
      (Z.of_nat (length fiveJobs)) = None
  ∧ ∃ sortedJobs : list Job.t,
      fst (getRecentJobs pretty (ledgerClient fiveJobs noFault)
             (searchArgs None None (Some 10)) readyWorld)
      = Returned
          (textResponse
             ("Most recent jobs (" +:+ pretty (Z.min (limitOf (searchArgs None None (Some 10)))
                        (Z.of_nat (length fiveJobs))) +:+
             " found):" +:+ String "010" "" +:+ String "010" "" +:+
             String.concat (String "010" "")
               (imap
                  (fun (index : nat) (job : Job.t) =>
                     pretty (Z.of_nat index + 1) +:+ ". Escrow ID " +:+
                     match Job.escrowId job with
                     | Some escrowId => pretty escrowId
                     | None => "undefined"
                     end +:+ ": " +:+
                     match Job.title job with
                     | Some title => if String.eqb title "" then "Untitled" else title
                     | None => "Untitled"
                     end +:+
                     match Job.timestamp job with
                     | Some ts => if ts =? 0 then "" else " - " +:+ pretty (ts * 1000)
                     | None => ""
                     end)
                  sortedJobs)))
      ∧ fst (recentSelect (ledgerClient fiveJobs noFault)
               (searchArgs None None (Some 10)) readyWorld)
        = Returned (Selected (Z.of_nat (length fiveJobs)) sortedJobs)
      ∧ Z.of_nat (length sortedJobs)
        = Z.min (limitOf (searchArgs None None (Some 10)))
            (Z.of_nat (length fiveJobs))
      ∧ reverse sortedJobs = drop (length fiveJobs - length sortedJobs) fiveJobs.
Proof.
  split; [reflexivity|]. split; [simpl; lia|]. split; [reflexivity|].
  split; [reflexivity|].
  apply (get_recent_jobs_count pretty fiveJobs noFault
           (searchArgs None None (Some 10)) readyWorld);
    [reflexivity | simpl; lia | reflexivity | reflexivity].
Defined.

(** A limit above the size of the ledger: all five jobs, newest first. *)
Example recent_ten_of_five_text :
  fst (getRecentJobs pretty (ledgerClient fiveJobs noFault)
         (searchArgs None None (Some 10)) readyWorld)
  = Returned
      (textResponse
         ("Most recent jobs (5 found):" +:+ String "010" "" +:+ String "010" "" +:+
          "1. Escrow ID 104: Logo design" +:+ String "010" "" +:+
          "2. Escrow ID 103: Logo design" +:+ String "010" "" +:+
          "3. Escrow ID 102: Logo design" +:+ String "010" "" +:+
          "4. Escrow ID 101: Logo design" +:+ String "010" "" +:+
          "5. Escrow ID 100: Logo design")).
Proof. vm_compute. reflexivity. Qed.

(** ** [search_jobs]: a failing chunk *)



Lemma batchOf_failed client win e :
  jobsRange client win.1 win.2 = Raised e → batchOf client win = [].
Proof. intros Hwin. unfold batchOf. by rewrite Hwin. Qed.

(** What [searchJobs] renders from a selection never reads as a failure. *)
Lemma searchRender_text args sel :
  ∃ t, searchRender args sel = textResponse t
       ∧ String.prefix "Failed to" t = false.
Proof.
  destruct sel as [|total jobs]; simpl.
  - by eexists.
  - destruct (length jobs =? 0)%nat; by eexists.
Qed.




(** The first chunk fails, the second is still requested, and the ten open
    jobs of the second chunk are what the search selects. *)
Example search_after_failed_first_chunk :
  searchSelect (ledgerClient mixedLedger failFirst)
    (searchArgs (Some "open") None (Some 20)) readyWorld
  = (Returned
       (Selected 45
          ((fun i : nat => sampleJob (Z.of_nat i) (Some "open"))
             <$> [20; 22; 24; 26; 28; 30; 32; 34; 36; 38]%nat)),
     after [CallLength; CallRange 0 20; CallRange 20 40] readyWorld).
Proof. vm_compute. reflexivity. Qed.

Example search_after_failed_first_chunk_text :
  fst (searchJobs (ledgerClient mixedLedger failFirst)
         (searchArgs (Some "open") None (Some 20)) readyWorld)
  = Returned
      (textResponse
         ("Found 10 of 45 total jobs (filtered by status: open):" +:+
          String "010" "" +:+ String "010" "" +:+
          "1. Job #20: Logo design - open" +:+ String "010" "" +:+
          "2. Job #22: Logo design - open" +:+ String "010" "" +:+
          "3. Job #24: Logo design - open" +:+ String "010" "" +:+
          "4. Job #26: Logo design - open" +:+ String "010" "" +:+
          "5. Job #28: Logo design - open" +:+ String "010" "" +:+
          "6. Job #30: Logo design - open" +:+ String "010" "" +:+
          "7. Job #32: Logo design - open" +:+ String "010" "" +:+
          "8. Job #34: Logo design - open" +:+ String "010" "" +:+
          "9. Job #36: Logo design - open" +:+ String "010" "" +:+
          "10. Job #38: Logo design - open")).
Proof. vm_compute. reflexivity. Qed.

(** ** Rendering of a non-empty result *)

Lemma untitled_cases job :
  (Job.title job = None → untitled job = "Untitled")
  ∧ (∀ t, Job.title job = Some t → t ≠ "" → untitled job = t).
Proof.
  unfold untitled, Js.orElse, Js.truthyStr. split.
  - by intros ->.
  - intros t -> Ht. by destruct (String.eqb_spec t "").
Qed.

Lemma statusInfo_cases job :
  (Job.status job = None → statusInfo job = "")
  ∧ (∀ s, Job.status job = Some s → s ≠ "" → statusInfo job = " - " +:+ s).
Proof.
  unfold statusInfo, Js.truthyStr. split.
  - by intros ->.
  - intros s -> Hs. by destruct (String.eqb_spec s "").
Qed.

Lemma paymentInfo_cases job :
  (Job.paymentAmount job = None → paymentInfo job = "")
  ∧ (∀ v, Job.paymentAmount job = Some v → Js.truthyVal (Some v) = true →
       paymentInfo job = " - " +:+ Js.show v +:+ " ETH").
Proof.
  unfold paymentInfo. split.
  - by intros ->.
  - by intros v -> ->.
Qed.

Lemma timeInfo_cases toLocaleString job :
  (Job.timestamp job = None → timeInfo toLocaleString job = "")
  ∧ (∀ ts, Job.timestamp job = Some ts → ts ≠ 0 →
       timeInfo toLocaleString job = " - " +:+ toLocaleString (ts * 1000)).
Proof.
  unfold timeInfo. split.
  - by intros ->.
  - intros ts -> Hts. by destruct (Z.eqb_spec ts 0).
Qed.

(** C8, amended.  For every non-empty list of jobs, the answers of
    [search_jobs] and [get_recent_jobs] end in one line per job, joined by line
    feeds and numbered from 1.  A [search_jobs] line reads
    "<k>. Job #<id>: <title><status part><payment part>" and a
    [get_recent_jobs] line reads
    "<k>. Escrow ID <escrow id>: <title><time part>", with the job's escrow id
    when it has one, and without the job's id.  The title is
    "Untitled" when the job has none, and each of the status, payment and time
    parts is the empty text when the job lacks that field, and " - <field>"
    (followed by " ETH" for the payment) when it has a truthy one. *)
Theorem result_lines_numbered
    (toLocaleString : Z -> string) (args : ToolArgs)
    (total : Z) (jobs : list Job.t) :
  jobs ≠ [] →
  (∃ (filterText : string) (lines : list string),
     searchRender args (Selected total jobs)
     = textResponse
         ("Found " +:+ pretty (Z.of_nat (length jobs)) +:+ " of " +:+
          pretty total +:+ " total jobs" +:+ filterText +:+ ":" +:+
          Js.nl +:+ Js.nl +:+ Js.join Js.nl lines)
     ∧ length lines = length jobs
     ∧ ∀ (k : nat) (job : Job.t), jobs !! k = Some job →
         ∃ titleText statusPart paymentPart : string,
           lines !! k
           = Some (pretty (Z.of_nat k + 1) +:+ ". Job #" +:+ pretty (Job.id job) +:+
                   ": " +:+ titleText +:+ statusPart +:+ paymentPart)
           ∧ (Job.title job = None → titleText = "Untitled")
           ∧ (∀ t, Job.title job = Some t → t ≠ "" → titleText = t)
           ∧ (Job.status job = None → statusPart = "")
           ∧ (∀ s, Job.status job = Some s → s ≠ "" → statusPart = " - " +:+ s)
           ∧ (Job.paymentAmount job = None → paymentPart = "")
           ∧ (∀ v, Job.paymentAmount job = Some v → Js.truthyVal (Some v) = true →
                paymentPart = " - " +:+ Js.show v +:+ " ETH"))
  ∧ (∃ lines : list string,
       recentRender toLocaleString (Selected total jobs)
       = textResponse
           ("Most recent jobs (" +:+ pretty (Z.of_nat (length jobs)) +:+
            " found):" +:+ Js.nl +:+ Js.nl +:+ Js.join Js.nl lines)
       ∧ length lines = length jobs
       ∧ ∀ (k : nat) (job : Job.t), jobs !! k = Some job →
           ∃ idText titleText timePart : string,
             lines !! k
             = Some (pretty (Z.of_nat k + 1) +:+ ". Escrow ID " +:+ idText +:+
                     ": " +:+ titleText +:+ timePart)
             ∧ (∀ e, Job.escrowId job = Some e → idText = pretty e)
             ∧ (Job.title job = None → titleText = "Untitled")
             ∧ (∀ t, Job.title job = Some t → t ≠ "" → titleText = t)
             ∧ (Job.timestamp job = None → timePart = "")
             ∧ (∀ ts, Job.timestamp job = Some ts → ts ≠ 0 →
                  timePart = " - " +:+ toLocaleString (ts * 1000))).
Proof.
  intros Hjobs.
  assert (Hlen : (length jobs =? 0)%nat = false).
  { destruct jobs; [done|reflexivity]. }
  split.
  - eexists _, (imap searchLine jobs). simpl. rewrite Hlen.
    split; [reflexivity|]. split; [apply length_imap|].
    intros k job Hk.
    exists (untitled job), (statusInfo job), (paymentInfo job).
    split; [by rewrite list_lookup_imap, Hk|].
    destruct (untitled_cases job), (statusInfo_cases job), (paymentInfo_cases job).
    repeat split; assumption.
  - exists (imap (recentLine toLocaleString) jobs). simpl. rewrite Hlen.
    split; [reflexivity|]. split; [apply length_imap|].
    intros k job Hk.
    exists (Js.showOptZ (Job.escrowId job)), (untitled job),
      (timeInfo toLocaleString job).
    split; [by rewrite list_lookup_imap, Hk|].
    destruct (untitled_cases job), (timeInfo_cases toLocaleString job).
    split; [by intros e ->|]. repeat split; assumption.
Qed.

(** The rendered text for the two "open" jobs found in the example ledger. *)
Example search_text_two_open :
  fst (searchJobs (ledgerClient fiveJobs noFault)
         (searchArgs (Some "open") None (Some 2)) readyWorld)
  = Returned
      (textResponse
         ("Found 2 of 5 total jobs (filtered by status: open):" +:+ Js.nl +:+ Js.nl +:+
          "1. Job #0: Logo design - open" +:+ Js.nl +:+
          "2. Job #2: Logo design - open")).
Proof. vm_compute. reflexivity. Qed.

(** A job with no optional field is rendered without blanks. *)
Example recent_text_bare_job :
  fst (getRecentJobs pretty (ledgerClient [bareJob 0] noFault)
         (searchArgs None None None) readyWorld)
  = Returned
      (textResponse
         ("Most recent jobs (1 found):" +:+ Js.nl +:+ Js.nl +:+
          "1. Escrow ID undefined: Untitled")).
Proof. vm_compute. reflexivity. Qed.

(** C8, as stated, fails for [get_recent_jobs]: its lines print the escrow id,
    not the job's id.  For the newest of eight jobs that carry nothing but
    their id (0..7), the line is "1. Escrow ID undefined: Untitled", and the
    job's id, 7, occurs nowhere in the answer. *)
Lemma recent_line_omits_job_id :
  fst (recentSelect (ledgerClient eightBareJobs noFault)
         (searchArgs None None (Some 1)) readyWorld)
  = Returned (Selected 8 [bareJob 7])
  ∧ fst (getRecentJobs pretty (ledgerClient eightBareJobs noFault)
           (searchArgs None None (Some 1)) readyWorld)
    = Returned
        (textResponse
           ("Most recent jobs (1 found):" +:+ Js.nl +:+ Js.nl +:+
            "1. Escrow ID undefined: Untitled"))
  ∧ Js.includes
      ("Most recent jobs (1 found):" +:+ Js.nl +:+ Js.nl +:+
       "1. Escrow ID undefined: Untitled")
      (pretty (Job.id (bareJob 7))) = false.
Proof. repeat split; vm_compute; reflexivity. Qed.

Lemma result_lines_numbered_witness :
  fiveJobs ≠ []
  ∧ (∃ (filterText : string) (lines : list string),
       searchRender (searchArgs (Some "open") None None) (Selected 5 fiveJobs)
       = textResponse
           ("Found " +:+ pretty (Z.of_nat (length fiveJobs)) +:+ " of " +:+
            pretty 5 +:+ " total jobs" +:+ filterText +:+ ":" +:+
            Js.nl +:+ Js.nl +:+ Js.join Js.nl lines)
       ∧ length lines = length fiveJobs
       ∧ ∀ (k : nat) (job : Job.t), fiveJobs !! k = Some job →
           ∃ titleText statusPart paymentPart : string,
             lines !! k
             = Some (pretty (Z.of_nat k + 1) +:+ ". Job #" +:+ pretty (Job.id job) +:+
                     ": " +:+ titleText +:+ statusPart +:+ paymentPart)
             ∧ (Job.title job = None → titleText = "Untitled")
             ∧ (∀ t, Job.title job = Some t → t ≠ "" → titleText = t)
             ∧ (Job.status job = None → statusPart = "")
             ∧ (∀ s, Job.status job = Some s → s ≠ "" → statusPart = " - " +:+ s)
             ∧ (Job.paymentAmount job = None → paymentPart = "")
             ∧ (∀ v, Job.paymentAmount job = Some v → Js.truthyVal (Some v) = true →
                  paymentPart = " - " +:+ Js.show v +:+ " ETH"))
  ∧ (∃ lines : list string,
       recentRender pretty (Selected 5 fiveJobs)
       = textResponse
           ("Most recent jobs (" +:+ pretty (Z.of_nat (length fiveJobs)) +:+
            " found):" +:+ Js.nl +:+ Js.nl +:+ Js.join Js.nl lines)
       ∧ length lines = length fiveJobs
       ∧ ∀ (k : nat) (job : Job.t), fiveJobs !! k = Some job →
           ∃ idText titleText timePart : string,
             lines !! k
             = Some (pretty (Z.of_nat k + 1) +:+ ". Escrow ID " +:+ idText +:+
                     ": " +:+ titleText +:+ timePart)
             ∧ (∀ e, Job.escrowId job = Some e → idText = pretty e)
             ∧ (Job.title job = None → titleText = "Untitled")
             ∧ (∀ t, Job.title job = Some t → t ≠ "" → titleText = t)
             ∧ (Job.timestamp job = None → timePart = "")
             ∧ (∀ ts, Job.timestamp job = Some ts → ts ≠ 0 →
                  timePart = " - " +:+ pretty (ts * 1000))).
Proof.
  split; [discriminate|].
  apply (result_lines_numbered pretty (searchArgs (Some "open") None None)
           5 fiveJobs).
  discriminate.
Defined.

(** ** The operation boundary *)

Lemma initialized_ready w : eaccClient w = true → initialized w = w.
Proof. destruct w as [c l]. simpl. by intros ->. Qed.

Lemma getJobCount_text client w :
  ∃ t w', getJobCount client w = (Returned (textResponse t), w').
Proof.
  unfold getJobCount, getJobCountTry,
    tryCatch, bind, requireClient, getJobsLength, ret.
  destruct (eaccClient w); [|by eexists _, _].
  destruct (jobsLength client); by eexists _, _.
Qed.

Lemma searchJobs_text client args w :
  ∃ t w', searchJobs client args w = (Returned (textResponse t), w').
Proof.
  unfold searchJobs, searchJobsTry, tryCatch, bind, ret.
  destruct (searchSelect client args w) as [[sel|e] w']; [|by eexists _, _].
  destruct (searchRender_text args sel) as (t & -> & _). by eexists _, _.
Qed.

Lemma getJobDetails_text toLocaleString client args w :
  ∃ t w', getJobDetails toLocaleString client args w
          = (Returned (textResponse t), w').
Proof.
  unfold getJobDetails, getJobDetailsTry,
    tryCatch, bind, requireClient, getJob, ret.
  destruct (eaccClient w); [|by eexists _, _].
  destruct (jobById client (arg_jobId args)) as [[job|]|e]; by eexists _, _.
Qed.

Lemma getRecentJobs_text toLocaleString client args w :
  ∃ t w', getRecentJobs toLocaleString client args w
          = (Returned (textResponse t), w').
Proof.
  unfold getRecentJobs, getRecentJobsTry, tryCatch, bind, ret.
  destruct (recentSelect client args w) as [[sel|e] w']; [|by eexists _, _].
  destruct sel as [|total jobs]; simpl; [by eexists _, _|].
  destruct (length jobs =? 0)%nat; by eexists _, _.
Qed.

(** An operation reached without arguments answers with the fault of the
    destructuring, in its own words, and asks the client nothing. *)
Lemma onArguments_absent failure property operation v :
  eaccClient v = true →
  onArguments failure property None operation v
  = (Returned (textResponse (failure +:+ errorText (destructureFault property))),
     v).
Proof.
  intros Hc. unfold onArguments, tryCatch, bind, requireClient. by rewrite Hc.
Qed.

Lemma onArguments_text failure property args operation v :
  (∀ a, ∃ t v', operation a v = (Returned (textResponse t), v')) →
  ∃ t v', onArguments failure property args operation v
          = (Returned (textResponse t), v').
Proof.
  intros Hop. destruct args as [a|]; [apply Hop|].
  unfold onArguments, tryCatch, bind, requireClient.
  destruct (eaccClient v); by eexists _, _.
Qed.

(** What an operation's [try] block raises, its [catch] renders. *)
Lemma getJobCount_caught client v e v' :
  getJobCountTry client v = (Raised e, v') →
  getJobCount client v
  = (Returned (textResponse ("Failed to get job count: " +:+ errorText e)), v').
Proof. intros H. unfold getJobCount, tryCatch. by rewrite H. Qed.

Lemma searchJobs_caught client args v e v' :
  searchJobsTry client args v = (Raised e, v') →
  searchJobs client args v
  = (Returned (textResponse ("Failed to search jobs: " +:+ errorText e)), v').
Proof. intros H. unfold searchJobs, tryCatch. by rewrite H. Qed.

Lemma getJobDetails_caught toLocaleString client args v e v' :
  getJobDetailsTry toLocaleString client args v = (Raised e, v') →
  getJobDetails toLocaleString client args v
  = (Returned (textResponse ("Failed to get job details: " +:+ errorText e)), v').
Proof. intros H. unfold getJobDetails, tryCatch. by rewrite H. Qed.

Lemma getRecentJobs_caught toLocaleString client args v e v' :
  getRecentJobsTry toLocaleString client args v = (Raised e, v') →
  getRecentJobs toLocaleString client args v
  = (Returned (textResponse ("Failed to get recent jobs: " +:+ errorText e)), v').
Proof. intros H. unfold getRecentJobs, tryCatch. by rewrite H. Qed.

(** Once the client is set up, the handler hands the call to the operation
    named, and answers an unknown name itself. *)
Lemma callTool_dispatch toLocaleString client name args w :
  eaccClient w = true ∨ initOutcome client = InitOk →
  callTool toLocaleString client name args w
  = if String.eqb name "get_job_count" then getJobCount client (initialized w)
    else if String.eqb name "search_jobs"
         then onArguments "Failed to search jobs: " "status" args
                (searchJobs client) (initialized w)
    else if String.eqb name "get_job_details"
         then onArguments "Failed to get job details: " "jobId" args
                (getJobDetails toLocaleString client) (initialized w)
    else if String.eqb name "get_recent_jobs"
         then onArguments "Failed to get recent jobs: " "limit" args
                (getRecentJobs toLocaleString client) (initialized w)
    else (Returned (textResponse ("Error: Unknown tool: " +:+ name)),
          initialized w).
Proof.
  intros Hready.
  assert (Hinit : initializeEACCClient client w = (Returned tt, initialized w)).
  { unfold initializeEACCClient. destruct (eaccClient w) eqn:Hc.
    - by rewrite initialized_ready.
    - destruct Hready as [Hready | Hready]; [done | by rewrite Hready]. }
  unfold callTool, tryCatch, bind at 1. rewrite Hinit.
  unfold bind at 1.
  change (negb (eaccClient (initialized w))) with false. cbv iota.
  destruct (String.eqb name "get_job_count").
  { by destruct (getJobCount_text client (initialized w)) as (t & w' & ->). }
  destruct (String.eqb name "search_jobs").
  { by destruct (onArguments_text "Failed to search jobs: " "status" args
                   (searchJobs client) (initialized w)
                   (fun a => searchJobs_text client a (initialized w)))
      as (t & w' & ->). }
  destruct (String.eqb name "get_job_details").
  { by destruct (onArguments_text "Failed to get job details: " "jobId" args
                   (getJobDetails toLocaleString client) (initialized w)
                   (fun a => getJobDetails_text toLocaleString client a
                               (initialized w)))
      as (t & w' & ->). }
  destruct (String.eqb name "get_recent_jobs").
  { by destruct (onArguments_text "Failed to get recent jobs: " "limit" args
                   (getRecentJobs toLocaleString client) (initialized w)
                   (fun a => getRecentJobs_text toLocaleString client a
                               (initialized w)))
      as (t & w' & ->). }
  reflexivity.
Qed.

(** A fault while the client is being set up is caught by the handler. *)
Lemma callTool_init_fault toLocaleString client name args w e :
  eaccClient w = false →
  initOutcome client = ConstructFails e ∨ initOutcome client = ConnectFails e →
  ∃ w', callTool toLocaleString client name args w
        = (Returned (textResponse ("Error: " +:+ errorText e)), w').
Proof.
  intros Hc Hinit.
  unfold callTool, tryCatch, bind at 1, initializeEACCClient. rewrite Hc.
  destruct Hinit as [-> | ->]; by eexists.
Qed.

Lemma getJobCount_fault client w e :
  eaccClient w = true →
  jobsLength client = Raised e →
  getJobCount client w
  = (Returned (textResponse ("Failed to get job count: " +:+ errorText e)),
     after [CallLength] w).
Proof.
  intros Hc Hlen.
  unfold getJobCount, getJobCountTry,
    tryCatch, bind, requireClient, getJobsLength.
  by rewrite Hc, Hlen.
Qed.

Lemma searchJobs_fault client args w e :
  eaccClient w = true →
  jobsLength client = Raised e →
  searchJobs client args w
  = (Returned (textResponse ("Failed to search jobs: " +:+ errorText e)),
     after [CallLength] w).
Proof.
  intros Hc Hlen.
  unfold searchJobs, searchJobsTry,
    tryCatch, bind, searchSelect, bind, requireClient,
    getJobsLength.
  by rewrite Hc, Hlen.
Qed.

(** Once the count is known, no fault of a range request reaches the text. *)
Lemma searchJobs_no_failure_text client args w total :
  eaccClient w = true →
  jobsLength client = Returned total →
  ∃ t w', searchJobs client args w = (Returned (textResponse t), w')
          ∧ String.prefix "Failed to" t = false.
Proof.
  intros Hc Hlen.
  assert (Hsel : ∃ sel w', searchSelect client args w = (Returned sel, w')).
  { destruct (decide (total = 0)) as [->|Hne].
    - exists EmptyLedger, (after [CallLength] w).
      unfold searchSelect, bind, requireClient, getJobsLength.
      by rewrite Hc, Hlen.
    - destruct (searchSelect_run client args w total Hc Hlen Hne)
        as (n & Hrun & _). by eexists _, _. }
  destruct Hsel as (sel & w' & Hsel).
  destruct (searchRender_text args sel) as (t & Ht & Hprefix).
  exists t, w'. by rewrite (searchJobs_of_select _ _ _ _ _ Hsel), Ht.
Qed.

Lemma getJobDetails_fault toLocaleString client args w e :
  eaccClient w = true →
  jobById client (arg_jobId args) = Raised e →
  getJobDetails toLocaleString client args w
  = (Returned (textResponse ("Failed to get job details: " +:+ errorText e)),
     after [CallById (arg_jobId args)] w).
Proof.
  intros Hc Hjob.
  unfold getJobDetails, getJobDetailsTry, tryCatch, bind, requireClient, getJob.
  by rewrite Hc, Hjob.
Qed.

Lemma getRecentJobs_fault toLocaleString client args w e :
  eaccClient w = true →
  jobsLength client = Raised e
  ∨ (∃ total, jobsLength client = Returned total ∧ total ≠ 0
              ∧ jobsRange client (Z.max 0 (total - limitOf args)) total = Raised e) →
  ∃ w', getRecentJobs toLocaleString client args w
        = (Returned (textResponse ("Failed to get recent jobs: " +:+ errorText e)),
           w').
Proof.
  intros Hc [Hlen | (total & Hlen & Hne & Hrange)].
  - exists (after [CallLength] w).
    unfold getRecentJobs, getRecentJobsTry,
      tryCatch, bind, recentSelect, bind, requireClient,
      getJobsLength.
    by rewrite Hc, Hlen.
  - eexists. unfold getRecentJobs, getRecentJobsTry, tryCatch, bind.
    rewrite (recentSelect_run client args w total Hc Hlen Hne), Hrange.
    reflexivity.
Qed.

(** C4, as stated, fails.  A fault of the collaborator while it connects is
    caught by the request handler and rendered as "Error: <message>", which
    does not begin with "Failed to".  And a fault of a chunk request inside
    [search_jobs] is caught and not rendered at all. *)
Lemma collaborator_fault_not_rendered_as_failed_to :
  fst (callTool pretty
         (withInit (ConnectFails (ErrorObj "network down"))
            (ledgerClient fiveJobs noFault))
         "get_job_count" (Some (searchArgs None None None)) freshWorld)
  = Returned (textResponse "Error: network down")
  ∧ String.prefix "Failed to" "Error: network down" = false
  ∧ fst (callTool pretty (ledgerClient fiveJobs failFirst)
           "search_jobs" (Some (searchArgs None None None)) freshWorld)
    = Returned (textResponse "No jobs found.")
  ∧ String.prefix "Failed to" "No jobs found." = false.
Proof. repeat split; vm_compute; reflexivity. Qed.

(** C4, amended.  Whatever the collaborator does, and whether or not the
    request carries arguments, a tool call never raises: the caller receives
    one text item.  A fault while the client is set up is rendered by the
    handler as "Error: <message>", and so is an unknown tool name.  Once the
    client is set up, whatever fault the [try] block of the operation raises
    is rendered by the operation as "Failed to <operation>: <message>": a
    fault of the count request, of the lookup by id, of the range request of
    [get_recent_jobs], and, in a call without arguments, the fault of the
    destructuring, raised before any request to the client.  A fault of a
    chunk request of [search_jobs] is not rendered: with the count known, the
    answer of [search_jobs] never begins with "Failed to". *)
Theorem call_tool_answers_in_text
    (toLocaleString : Z -> string) (client : EACCClient)
    (name : string) (args : option ToolArgs) (w : World) :
  ∃ (t : string) (w' : World),
    callTool toLocaleString client name args w = (Returned (textResponse t), w')
    ∧ payload (textResponse t) = Some t
    ∧ (eaccClient w = false →
       ∀ e, initOutcome client = ConstructFails e
            ∨ initOutcome client = ConnectFails e →
            t = "Error: " +:+ errorText e)
    ∧ (eaccClient w = true ∨ initOutcome client = InitOk →
       (name = "get_job_count" →
          (∀ e v, getJobCountTry client (initialized w) = (Raised e, v) →
             t = "Failed to get job count: " +:+ errorText e)
          ∧ (∀ e, jobsLength client = Raised e →
               t = "Failed to get job count: " +:+ errorText e))
       ∧ (name = "search_jobs" →
          (args = None →
             t = "Failed to search jobs: " +:+ errorText (destructureFault "status")
             ∧ w' = initialized w)
          ∧ (∀ a, args = Some a →
               (∀ e v, searchJobsTry client a (initialized w) = (Raised e, v) →
                  t = "Failed to search jobs: " +:+ errorText e)
               ∧ (∀ e, jobsLength client = Raised e →
                    t = "Failed to search jobs: " +:+ errorText e)
               ∧ (∀ total, jobsLength client = Returned total →
                    String.prefix "Failed to" t = false)))
       ∧ (name = "get_job_details" →
          (args = None →
             t = "Failed to get job details: "
                 +:+ errorText (destructureFault "jobId")
             ∧ w' = initialized w)
          ∧ (∀ a, args = Some a →
               (∀ e v, getJobDetailsTry toLocaleString client a (initialized w)
                       = (Raised e, v) →
                  t = "Failed to get job details: " +:+ errorText e)
               ∧ (∀ e, jobById client (arg_jobId a) = Raised e →
                    t = "Failed to get job details: " +:+ errorText e)))
       ∧ (name = "get_recent_jobs" →
          (args = None →
             t = "Failed to get recent jobs: "
                 +:+ errorText (destructureFault "limit")
             ∧ w' = initialized w)
          ∧ (∀ a, args = Some a →
               (∀ e v, getRecentJobsTry toLocaleString client a (initialized w)
                       = (Raised e, v) →
                  t = "Failed to get recent jobs: " +:+ errorText e)
               ∧ (∀ e, jobsLength client = Raised e
                       ∨ (∃ total, jobsLength client = Returned total ∧ total ≠ 0
                                   ∧ jobsRange client
                                       (Z.max 0 (total - limitOf a)) total
                                     = Raised e) →
                    t = "Failed to get recent jobs: " +:+ errorText e)))
       ∧ (name ≠ "get_job_count" → name ≠ "search_jobs" →
          name ≠ "get_job_details" → name ≠ "get_recent_jobs" →
          t = "Error: Unknown tool: " +:+ name)).
Proof.
  assert (Hcases : (eaccClient w = true ∨ initOutcome client = InitOk)
                   ∨ (eaccClient w = false
                      ∧ ∃ e, initOutcome client = ConstructFails e
                             ∨ initOutcome client = ConnectFails e)).
  { destruct (eaccClient w); [by left; left|].
    destruct (initOutcome client) as [|e|e]; [by left; right| |];
      right; (split; [done|]); exists e; [by left | by right]. }
  destruct Hcases as [Hready | (Hc & e & Hinit)].
  - assert (Hw : eaccClient (initialized w) = true) by reflexivity.
    assert (Hnotinit : eaccClient w = false →
              ∀ e, initOutcome client = ConstructFails e
                   ∨ initOutcome client = ConnectFails e → False).
    { intros Hc e [He|He]; destruct Hready as [Hr|Hr]; congruence. }
    rewrite (callTool_dispatch _ _ _ _ _ Hready).
    destruct (String.eqb_spec name "get_job_count") as [->|Hn1];
      [|destruct (String.eqb_spec name "search_jobs") as [->|Hn2];
        [|destruct (String.eqb_spec name "get_job_details") as [->|Hn3];
          [|destruct (String.eqb_spec name "get_recent_jobs") as [->|Hn4]]]].
    + destruct (getJobCount_text client (initialized w)) as (t & w' & Hop).
      exists t, w'. split; [done|]. split; [done|]. split.
      { intros Hc e He. destruct (Hnotinit Hc e He). }
      intros _. split; [|repeat split; done]. intros _. split.
      * intros e v He. rewrite (getJobCount_caught _ _ _ _ He) in Hop.
        same_text Hop.
      * intros e He. rewrite (getJobCount_fault _ _ e Hw He) in Hop.
        same_text Hop.
    + destruct args as [a|].
      * destruct (searchJobs_text client a (initialized w)) as (t & w' & Hop).
        exists t, w'. split; [done|]. split; [done|]. split.
        { intros Hc e He. destruct (Hnotinit Hc e He). }
        intros _. split; [done|]. split; [|repeat split; done].
        intros _. split; [done|]. intros a' [= <-]. split; [|split].
        -- intros e v He. rewrite (searchJobs_caught _ _ _ _ _ He) in Hop.
           same_text Hop.
        -- intros e He. rewrite (searchJobs_fault _ _ _ e Hw He) in Hop.
           same_text Hop.
        -- intros total Htotal.
           destruct (searchJobs_no_failure_text client a (initialized w) total
                       Hw Htotal) as (t' & w'' & Hop' & Hprefix).
           rewrite Hop' in Hop. same_text Hop.
      * rewrite (onArguments_absent _ _ _ _ Hw).
        eexists _, _. split; [done|]. split; [done|]. split.
        { intros Hc e He. destruct (Hnotinit Hc e He). }
        intros _. repeat split; try done.
    + destruct args as [a|].
      * destruct (getJobDetails_text toLocaleString client a (initialized w))
          as (t & w' & Hop).
        exists t, w'. split; [done|]. split; [done|]. split.
        { intros Hc e He. destruct (Hnotinit Hc e He). }
        intros _. split; [done|]. split; [done|]. split; [|repeat split; done].
        intros _. split; [done|]. intros a' [= <-]. split.
        -- intros e v He. rewrite (getJobDetails_caught _ _ _ _ _ _ He) in Hop.
           same_text Hop.
        -- intros e He. rewrite (getJobDetails_fault _ _ _ _ e Hw He) in Hop.
           same_text Hop.
      * rewrite (onArguments_absent _ _ _ _ Hw).
        eexists _, _. split; [done|]. split; [done|]. split.
        { intros Hc e He. destruct (Hnotinit Hc e He). }
        intros _. repeat split; try done.
    + destruct args as [a|].
      * destruct (getRecentJobs_text toLocaleString client a (initialized w))
          as (t & w' & Hop).
        exists t, w'. split; [done|]. split; [done|]. split.
        { intros Hc e He. destruct (Hnotinit Hc e He). }
        intros _. split; [done|]. split; [done|]. split; [done|]. split; [|done].
        intros _. split; [done|]. intros a' [= <-]. split.
        -- intros e v He. rewrite (getRecentJobs_caught _ _ _ _ _ _ He) in Hop.
           same_text Hop.
        -- intros e He.
           destruct (getRecentJobs_fault toLocaleString _ a _ e Hw He)
             as (w'' & Hop').
           rewrite Hop' in Hop. same_text Hop.
      * rewrite (onArguments_absent _ _ _ _ Hw).
        eexists _, _. split; [done|]. split; [done|]. split.
        { intros Hc e He. destruct (Hnotinit Hc e He). }
        intros _. repeat split; try done.
    + eexists _, _. split; [done|]. split; [done|]. split.
      { intros Hc e He. destruct (Hnotinit Hc e He). }
      intros _. repeat split; done.
  - destruct (callTool_init_fault toLocaleString client name args w e Hc Hinit)
      as (w' & Hop).
    exists ("Error: " +:+ errorText e), w'.
    split; [done|]. split; [done|]. split.
    + intros _ e' He'. destruct Hinit as [Hi|Hi], He' as [He'|He']; congruence.
    + intros [Hr|Hr]; [congruence|]. destruct Hinit as [Hi|Hi]; congruence.
Qed.

Lemma call_tool_answers_in_text_witness :
  (eaccClient freshWorld = true ∨ initOutcome brokenCount = InitOk)
  ∧ jobsLength brokenCount = Raised (NonError "timeout")
  ∧ ∃ (t : string) (w' : World),
      callTool pretty brokenCount "search_jobs" (Some (searchArgs None None None))
        freshWorld
      = (Returned (textResponse t), w')
      ∧ payload (textResponse t) = Some t
      ∧ t = "Failed to search jobs: timeout".
Proof.
  split; [by right|]. split; [reflexivity|].
  destruct (call_tool_answers_in_text pretty brokenCount "search_jobs"
              (Some (searchArgs None None None)) freshWorld)
    as (t & w' & Hcall & Hpayload & _ & Hready).
  exists t, w'. split; [exact Hcall|]. split; [exact Hpayload|].
  destruct Hready as (_ & Hsearch & _); [right; reflexivity|].
  destruct Hsearch as (_ & Hsome); [reflexivity|].
  destruct (Hsome (searchArgs None None None)) as (_ & Hcount & _);
    [reflexivity|].
  apply (Hcount (NonError "timeout")). reflexivity.
Defined.

(** A count fault inside an operation, a call without arguments, and an
    unknown tool name. *)
Example search_count_fault_text :
  fst (callTool pretty brokenCount "search_jobs"
         (Some (searchArgs None None None)) freshWorld)
  = Returned (textResponse "Failed to search jobs: timeout").
Proof. vm_compute. reflexivity. Qed.

Example search_without_arguments_text :
  callTool pretty (ledgerClient fiveJobs noFault) "search_jobs" None freshWorld
  = (Returned
       (textResponse
          "Failed to search jobs: Cannot destructure property 'status' of 'args' as it is undefined."),
     initialized freshWorld).
Proof. vm_compute. reflexivity. Qed.

Example unknown_tool_text :
  fst (callTool pretty brokenCount "delete_job"
         (Some (searchArgs None None None)) freshWorld)
  = Returned (textResponse "Error: Unknown tool: delete_job").
Proof. vm_compute. reflexivity. Qed.

(** * Further properties of the code *)

(** ** Substrings and letter case *)

Lemma prefix_append (c s : string) :
  String.prefix c s = true ↔ ∃ post, s = c +:+ post.
Proof.
  revert s. induction c as [|a c IH]; intros [|b s]; simpl.
  - split; [intros _; by exists "" | done].
  - split; [intros _; by exists (String b s) | done].
  - split; [done | by intros (post & [=])].
  - destruct (ascii_dec a b) as [->|Hab].
    + rewrite IH. split; intros (post & Hpost); exists post.
      * by rewrite Hpost.
      * by injection Hpost.
    + split; [done | intros (post & Hpost)]. injection Hpost as Heq _.
      by symmetry in Heq.
Qed.

(** [Js.includes] is the substring test. *)
Lemma includes_substring (s c : string) :
  Js.includes s c = true ↔ ∃ pre post, s = pre +:+ c +:+ post.
Proof.
  induction s as [|a s IH].
  - change (Js.includes "" c) with (String.prefix c "" || false).
    rewrite orb_false_r, prefix_append. split.
    + intros (post & Hpost). by exists "", post.
    + intros (pre & post & Heq). destruct pre as [|b pre]; [by exists post|done].
  - change (Js.includes (String a s) c)
      with (String.prefix c (String a s) || Js.includes s c).
    rewrite orb_true_iff, prefix_append, IH. split.
    + intros [(post & Hpost) | (pre & post & Heq)].
      * by exists "", post.
      * exists (String a pre), post. simpl. by rewrite Heq.
    + intros (pre & post & Heq). destruct pre as [|b pre].
      * left. by exists post.
      * right. exists pre, post. simpl in Heq. by injection Heq.
Qed.

Lemma toLowerCase_empty (s : string) : Js.toLowerCase s = "" ↔ s = "".
Proof. destruct s; simpl; split; done. Qed.

(** ** The category filter *)

(** X1.  The category filter keeps a job if and only if the category
    argument is absent or empty, or the argument, in lower case, occurs as a
    substring of the job's title, of its description, or of one of its tags,
    each taken in lower case.  A job with none of these fields passes no
    non-empty category. *)
Theorem category_filter_keeps
    (category : option string) (jobs : list Job.t) (job : Job.t) :
  job ∈ filterByCategory category jobs ↔
  job ∈ jobs
  ∧ (category = None ∨ category = Some ""
     ∨ ∃ c field : string,
         category = Some c
         ∧ (Job.title job = Some field ∨ Job.description job = Some field
            ∨ ∃ ts, Job.tags job = Some ts ∧ field ∈ ts)
         ∧ ∃ pre post, Js.toLowerCase field = pre +:+ Js.toLowerCase c +:+ post).
Proof.
  rewrite elem_of_filterByCategory.
  assert (Hmatch : ∀ c, categoryMatches c job = true ↔
            ∃ field : string,
              (Job.title job = Some field ∨ Job.description job = Some field
               ∨ ∃ ts, Job.tags job = Some ts ∧ field ∈ ts)
              ∧ ∃ pre post, Js.toLowerCase field = pre +:+ Js.toLowerCase c +:+ post).
  { intros c. unfold categoryMatches, fieldIncludes.
    rewrite !orb_true_iff. split.
    - intros [[Ht | Hd] | Htags].
      + destruct (Job.title job) as [t|]; [|done].
        exists t. split; [by left|]. by apply includes_substring.
      + destruct (Job.description job) as [d|]; [|done].
        exists d. split; [by right; left|]. by apply includes_substring.
      + destruct (Job.tags job) as [ts|]; [|done].
        apply existsb_exists in Htags as (tag & Hin & Htag).
        exists tag. split; [|by apply includes_substring].
        right; right. exists ts. split; [done|]. by apply list_elem_of_In.
    - intros (field & [Ht | [Hd | (ts & Hts & Hin)]] & Hsub%includes_substring).
      + left; left. by rewrite Ht.
      + left; right. by rewrite Hd.
      + right. rewrite Hts. apply existsb_exists. exists field.
        split; [by apply list_elem_of_In | done]. }
  split; intros [Hin Hkeep]; (split; [done|]).
  - destruct category as [c|]; [|by left].
    destruct (decide (c = "")) as [->|Hc]; [by right; left|].
    right; right.
    destruct (proj1 (Hmatch c)) as (field & Hfield & Hsub).
    { apply Hkeep. by apply categoryActive_Some. }
    by exists c, field.
  - intros c (-> & Hc)%categoryActive_Some.
    destruct Hkeep as [[=] | [[=] | (c' & field & [= <-] & Hfield & Hsub)]];
      try congruence.
    apply Hmatch. by exists field.
Qed.

(** The category is matched without regard to letter case, in any of the
    three fields. *)
Example category_matches_tag :
  categoryMatches "VIDEO"
    (Job.mk 3 None (Some "Editing") None (Some ["digital"; "Video-Edit"]) None
            None None None None None None) = true.
Proof. vm_compute. reflexivity. Qed.

(** ** How the two filters compose *)

Lemma filter_comm {A : Type} (P Q : A → Prop)
    `{∀ x, Decision (P x)} `{∀ x, Decision (Q x)} (l : list A) :
  filter P (filter Q l) = filter Q (filter P l).
Proof.
  induction l as [|x l IH]; [done|].
  rewrite !filter_cons.
  destruct (decide (Q x)) as [HQ|HQ], (decide (P x)) as [HP|HP];
    rewrite ?filter_cons; repeat case_decide; try done; by rewrite IH.
Qed.

Lemma filter_idemp {A : Type} (P : A → Prop) `{∀ x, Decision (P x)} (l : list A) :
  filter P (filter P l) = filter P l.
Proof. by apply list_filter_filter_l. Qed.

Lemma filterByStatus_idemp status jobs :
  filterByStatus status (filterByStatus status jobs) = filterByStatus status jobs.
Proof.
  unfold filterByStatus. destruct (statusActive status); [|done].
  apply filter_idemp.
Qed.

Lemma filterByCategory_idemp category jobs :
  filterByCategory category (filterByCategory category jobs)
  = filterByCategory category jobs.
Proof.
  unfold filterByCategory. destruct (categoryActive category); [|done].
  apply filter_idemp.
Qed.

Lemma filters_commute status category jobs :
  filterByCategory category (filterByStatus status jobs)
  = filterByStatus status (filterByCategory category jobs).
Proof.
  unfold filterByCategory, filterByStatus.
  destruct (categoryActive category), (statusActive status); try done.
  apply filter_comm.
Qed.

(** X2.  The status filter and the category filter commute, a job passes
    both exactly when it passes each one on its own, filtering a second time
    changes nothing, and the jobs kept are a sublist of the jobs given: their
    relative order never changes. *)
Theorem filters_commute_and_conjoin
    (status category : option string) (jobs : list Job.t) :
  filterByCategory category (filterByStatus status jobs)
  = filterByStatus status (filterByCategory category jobs)
  ∧ (∀ job, job ∈ applyFilters status category jobs ↔
            job ∈ filterByStatus status jobs ∧ job ∈ filterByCategory category jobs)
  ∧ applyFilters status category (applyFilters status category jobs)
    = applyFilters status category jobs
  ∧ applyFilters status category jobs `sublist_of` jobs.
Proof.
  split; [apply filters_commute|]. split; [|split].
  - intros job. unfold applyFilters.
    rewrite elem_of_filterByCategory, !elem_of_filterByStatus,
      elem_of_filterByCategory.
    split.
    + by intros [[Hin Hs] Hc].
    + by intros [[Hin Hs] [_ Hc]].
  - unfold applyFilters.
    rewrite (filters_commute status category
               (filterByCategory category (filterByStatus status jobs))).
    by rewrite filterByCategory_idemp, <- filters_commute, filterByStatus_idemp.
  - apply applyFilters_sublist.
Qed.

(** ** Letter case of the status argument *)

Lemma statusMatches_lower s s' job :
  Js.toLowerCase s = Js.toLowerCase s' → statusMatches s job = statusMatches s' job.
Proof. intros Heq. unfold statusMatches. by rewrite Heq. Qed.

(** X3.  Two status arguments that differ only in letter case select the
    same jobs, provided neither is empty nor the wildcard 'all'.  (The wildcard
    itself is compared exactly: 'ALL' is an ordinary status to match.) *)
Theorem status_filter_ignores_argument_case
    (s s' : string) (jobs : list Job.t) :
  s ≠ "" → s ≠ "all" → s' ≠ "" → s' ≠ "all" →
  Js.toLowerCase s = Js.toLowerCase s' →
  filterByStatus (Some s) jobs = filterByStatus (Some s') jobs.
Proof.
  intros Hs1 Hs2 Hs1' Hs2' Heq. unfold filterByStatus.
  rewrite (proj2 (statusActive_Some (Some s) s)) by done.
  rewrite (proj2 (statusActive_Some (Some s') s')) by done.
  induction jobs as [|job jobs IH]; [done|].
  rewrite !filter_cons, IH, (statusMatches_lower s s' job Heq).
  by repeat case_decide.
Qed.

Lemma status_filter_ignores_argument_case_witness :
  "Open" ≠ "" ∧ "Open" ≠ "all" ∧ "OPEN" ≠ "" ∧ "OPEN" ≠ "all"
  ∧ Js.toLowerCase "Open" = Js.toLowerCase "OPEN"
  ∧ filterByStatus (Some "Open") fiveJobs = filterByStatus (Some "OPEN") fiveJobs.
Proof.
  split; [discriminate|]. split; [discriminate|]. split; [discriminate|].
  split; [discriminate|]. split; [reflexivity|].
  apply (status_filter_ignores_argument_case "Open" "OPEN" fiveJobs);
    (discriminate || reflexivity).
Defined.

(** The wildcard in capitals is no wildcard: it keeps only jobs whose status
    is "all" in some letter case. *)
Example status_ALL_is_not_the_wildcard :
  filterByStatus (Some "all") fiveJobs = fiveJobs
  ∧ filterByStatus (Some "ALL") fiveJobs = [].
Proof. vm_compute. split; reflexivity. Qed.

(** ** The range requests of a scan *)

(** The answer of [searchJobs] on a non-empty ledger, with its scan. *)
Lemma searchJobs_run client args w total :
  eaccClient w = true →
  jobsLength client = Returned total →
  total ≠ 0 →
  ∃ n : nat,
    searchJobs client args w
    = (Returned
         (searchRender args
            (Selected total
               (selectJobs (arg_status args) (arg_category args) (limitOf args)
                  (gathered client
                     (windows (Z.min total (limitOf args * 3)) 0 n))))),
       after (CallLength ::
              ((fun k : nat =>
                  CallRange (20 * Z.of_nat k)
                    (Z.min (20 * Z.of_nat k + 20)
                       (Z.min total (limitOf args * 3)))) <$> seq 0 n)) w)
    ∧ (∀ m : nat, (m < n)%nat →
         20 * Z.of_nat m < Z.min total (limitOf args * 3)
         ∧ Z.of_nat (length (gathered client
                               (windows (Z.min total (limitOf args * 3)) 0 m)))
           < limitOf args)
    ∧ (Z.min total (limitOf args * 3) ≤ 20 * Z.of_nat n
       ∨ limitOf args
         ≤ Z.of_nat (length (gathered client
                               (windows (Z.min total (limitOf args * 3)) 0 n)))).
Proof.
  intros Hclient Hlen Htotal.
  destruct (searchSelect_run client args w total Hclient Hlen Htotal)
    as (n & Hrun & Hbefore & Hafter).
  unfold maxJobsToFetchOf, continues, batchSize in *.
  exists n. split; [|split].
  - by rewrite (searchJobs_of_select _ _ _ _ _ Hrun), rangeCalls_windows.
  - exact Hbefore.
  - lia.
Qed.

(** X4.  On a non-empty ledger [search_jobs] asks for the count once and then
    for the consecutive windows [20k, min(20k+20, bound)), k = 0 .. n-1, where
    bound = min(total, limit*3).  Every window requested is non-empty, starts
    at a multiple of 20, holds at most 20 indices and lies inside
    [0, total); consecutive windows do not overlap; and there are at most
    ceil(bound / 20) of them, none at all when the limit is not positive. *)
Theorem search_jobs_requests_within_bound
    (client : EACCClient) (args : ToolArgs) (w : World) (total : Z) :
  eaccClient w = true →
  jobsLength client = Returned total →
  total ≠ 0 →
  ∃ n : nat,
    calls (snd (searchJobs client args w))
    = calls w ++
      CallLength ::
      ((fun k : nat =>
          CallRange (20 * Z.of_nat k)
            (Z.min (20 * Z.of_nat k + 20) (Z.min total (limitOf args * 3))))
         <$> seq 0 n)
    ∧ (∀ k : nat, (k < n)%nat →
         0 ≤ 20 * Z.of_nat k
         ∧ 20 * Z.of_nat k
           < Z.min (20 * Z.of_nat k + 20) (Z.min total (limitOf args * 3))
         ∧ Z.min (20 * Z.of_nat k + 20) (Z.min total (limitOf args * 3))
           ≤ 20 * Z.of_nat (S k)
         ∧ Z.min (20 * Z.of_nat k + 20) (Z.min total (limitOf args * 3)) ≤ total)
    ∧ 20 * Z.of_nat n < Z.max 0 (Z.min total (limitOf args * 3)) + 20
    ∧ (limitOf args ≤ 0 → n = 0%nat).
Proof.
  intros Hclient Hlen Htotal.
  destruct (searchJobs_run client args w total Hclient Hlen Htotal)
    as (n & Hrun & Hbefore & Hafter).
  exists n. split; [by rewrite Hrun|]. split; [|split].
  - intros k Hk. destruct (Hbefore k Hk) as [Hstart _]. lia.
  - destruct n as [|n]; [lia|].
    destruct (Hbefore n) as [Hstart _]; lia.
  - intros Hlimit. destruct n as [|n]; [done|].
    destruct (Hbefore 0%nat) as [_ Hcount]; [lia|].
    simpl in Hcount. lia.
Qed.

Lemma search_jobs_requests_within_bound_witness :
  eaccClient readyWorld = true
  ∧ jobsLength (ledgerClient mixedLedger failFirst) = Returned 45
  ∧ 45 ≠ 0
  ∧ ∃ n : nat,
      calls (snd (searchJobs (ledgerClient mixedLedger failFirst)
                    (searchArgs (Some "open") None (Some 20)) readyWorld))
      = calls readyWorld ++
        CallLength ::
        ((fun k : nat =>
            CallRange (20 * Z.of_nat k)
              (Z.min (20 * Z.of_nat k + 20)
                 (Z.min 45 (limitOf (searchArgs (Some "open") None (Some 20)) * 3))))
           <$> seq 0 n)
      ∧ (∀ k : nat, (k < n)%nat →
           0 ≤ 20 * Z.of_nat k
           ∧ 20 * Z.of_nat k
             < Z.min (20 * Z.of_nat k + 20)
                 (Z.min 45 (limitOf (searchArgs (Some "open") None (Some 20)) * 3))
           ∧ Z.min (20 * Z.of_nat k + 20)
               (Z.min 45 (limitOf (searchArgs (Some "open") None (Some 20)) * 3))
             ≤ 20 * Z.of_nat (S k)
           ∧ Z.min (20 * Z.of_nat k + 20)
               (Z.min 45 (limitOf (searchArgs (Some "open") None (Some 20)) * 3))
             ≤ 45)
      ∧ 20 * Z.of_nat n
        < Z.max 0 (Z.min 45 (limitOf (searchArgs (Some "open") None (Some 20)) * 3))
          + 20
      ∧ (limitOf (searchArgs (Some "open") None (Some 20)) ≤ 0 → n = 0%nat).
Proof.
  split; [reflexivity|]. split; [reflexivity|]. split; [lia|].
  apply (search_jobs_requests_within_bound (ledgerClient mixedLedger failFirst)
           (searchArgs (Some "open") None (Some 20)) readyWorld 45);
    [reflexivity | reflexivity | lia].
Defined.

Lemma selectJobs_nil status category limit :
  selectJobs status category limit [] = [].
Proof.
  unfold selectJobs, applyFilters, filterByCategory, filterByStatus, Js.slice0.
  destruct (statusActive status), (categoryActive category); apply take_nil.
Qed.

(** X5.  With a limit that is not positive, [search_jobs] on a non-empty
    ledger makes no range request at all and answers with the "No jobs found"
    text, whatever the ledger holds. *)
Theorem search_jobs_nonpositive_limit
    (client : EACCClient) (args : ToolArgs) (w : World) (total : Z) :
  eaccClient w = true →
  jobsLength client = Returned total →
  total ≠ 0 →
  limitOf args ≤ 0 →
  searchJobs client args w
  = (Returned (textResponse
                 (searchEmptyText (arg_status args) (arg_category args))),
     after [CallLength] w).
Proof.
  intros Hclient Hlen Htotal Hlimit.
  destruct (searchJobs_run client args w total Hclient Hlen Htotal)
    as (n & Hrun & Hbefore & _).
  destruct n as [|n].
  - rewrite Hrun.
    change (gathered client (windows (Z.min total (limitOf args * 3)) 0 0))
      with (@nil Job.t).
    by rewrite selectJobs_nil.
  - destruct (Hbefore 0%nat) as [_ Hcount]; [lia|]. simpl in Hcount. lia.
Qed.

Lemma search_jobs_nonpositive_limit_witness :
  eaccClient readyWorld = true
  ∧ jobsLength (ledgerClient fiveJobs noFault) = Returned 5
  ∧ 5 ≠ 0
  ∧ limitOf (searchArgs (Some "open") None (Some 0)) ≤ 0
  ∧ searchJobs (ledgerClient fiveJobs noFault)
      (searchArgs (Some "open") None (Some 0)) readyWorld
    = (Returned
         (textResponse
            (searchEmptyText
               (arg_status (searchArgs (Some "open") None (Some 0)))
               (arg_category (searchArgs (Some "open") None (Some 0))))),
       after [CallLength] readyWorld).
Proof.
  split; [reflexivity|]. split; [reflexivity|]. split; [lia|].
  split; [unfold limitOf; simpl; lia|].
  apply (search_jobs_nonpositive_limit (ledgerClient fiveJobs noFault)
           (searchArgs (Some "open") None (Some 0)) readyWorld 5);
    [reflexivity | reflexivity | lia | unfold limitOf; simpl; lia].
Defined.

(** A limit of 0 finds nothing even though three jobs are open. *)
Example search_limit_zero_text :
  fst (searchJobs (ledgerClient fiveJobs noFault)
         (searchArgs (Some "open") None (Some 0)) readyWorld)
  = Returned
      (textResponse
         "No jobs found matching your criteria (status: open, category: any).").
Proof. vm_compute. reflexivity. Qed.

(** ** When every range request fails *)

Lemma gathered_all_failed client wins :
  (∀ s e, ∃ err, jobsRange client s e = Raised err) →
  gathered client wins = [].
Proof.
  intros Hdown. induction wins as [|win wins IH]; [done|].
  rewrite gathered_cons, IH.
  destruct (Hdown win.1 win.2) as [err Herr].
  by rewrite (batchOf_failed client win err Herr).
Qed.

(** X6.  If every range request throws, [search_jobs] (limit > 0, total > 0)
    still tries every window under the scan bound, one after the other,
    ceil(bound / 20) requests in all, and then answers with the "No jobs found"
    text: the caller cannot tell a ledger that cannot be read from one without
    a match. *)
Theorem search_jobs_all_chunks_fail
    (client : EACCClient) (args : ToolArgs) (w : World) (total : Z) :
  eaccClient w = true →
  jobsLength client = Returned total →
  0 < total →
  0 < limitOf args →
  (∀ s e, ∃ err, jobsRange client s e = Raised err) →
  ∃ n : nat,
    searchJobs client args w
    = (Returned (textResponse
                   (searchEmptyText (arg_status args) (arg_category args))),
       after (CallLength ::
              ((fun k : nat =>
                  CallRange (20 * Z.of_nat k)
                    (Z.min (20 * Z.of_nat k + 20)
                       (Z.min total (limitOf args * 3)))) <$> seq 0 n)) w)
    ∧ Z.min total (limitOf args * 3) ≤ 20 * Z.of_nat n
    ∧ 20 * Z.of_nat n < Z.min total (limitOf args * 3) + 20.
Proof.
  intros Hclient Hlen Htotal Hlimit Hdown.
  destruct (searchJobs_run client args w total Hclient Hlen) as
    (n & Hrun & Hbefore & Hafter); [lia|].
  rewrite (gathered_all_failed client _ Hdown) in Hrun, Hafter.
  rewrite selectJobs_nil in Hrun.
  exists n. split; [exact Hrun|]. split.
  - simpl in Hafter. lia.
  - destruct n as [|n]; [lia|].
    destruct (Hbefore n) as [Hstart _]; lia.
Qed.

Lemma search_jobs_all_chunks_fail_witness :
  eaccClient readyWorld = true
  ∧ jobsLength (ledgerClient mixedLedger rangesDown) = Returned 45
  ∧ 0 < 45
  ∧ 0 < limitOf (searchArgs None None (Some 20))
  ∧ (∀ s e, ∃ err, jobsRange (ledgerClient mixedLedger rangesDown) s e = Raised err)
  ∧ ∃ n : nat,
      searchJobs (ledgerClient mixedLedger rangesDown)
        (searchArgs None None (Some 20)) readyWorld
      = (Returned
           (textResponse
              (searchEmptyText (arg_status (searchArgs None None (Some 20)))
                 (arg_category (searchArgs None None (Some 20))))),
         after (CallLength ::
                ((fun k : nat =>
                    CallRange (20 * Z.of_nat k)
                      (Z.min (20 * Z.of_nat k + 20)
                         (Z.min 45 (limitOf (searchArgs None None (Some 20)) * 3))))
                   <$> seq 0 n)) readyWorld)
      ∧ Z.min 45 (limitOf (searchArgs None None (Some 20)) * 3) ≤ 20 * Z.of_nat n
      ∧ 20 * Z.of_nat n
        < Z.min 45 (limitOf (searchArgs None None (Some 20)) * 3) + 20.
Proof.
  split; [reflexivity|]. split; [reflexivity|]. split; [lia|].
  split; [reflexivity|].
  split; [intros s e; by exists (ErrorObj "rpc down")|].
  apply (search_jobs_all_chunks_fail (ledgerClient mixedLedger rangesDown)
           (searchArgs None None (Some 20)) readyWorld 45);
    [reflexivity | reflexivity | lia | reflexivity
    | intros s e; by exists (ErrorObj "rpc down")].
Defined.

(** Forty-five jobs, limit 20, nothing readable: three requests, then
    "No jobs found." *)
Example search_all_chunks_fail_run :
  searchJobs (ledgerClient mixedLedger rangesDown)
    (searchArgs None None (Some 20)) readyWorld
  = (Returned (textResponse "No jobs found."),
     after [CallLength; CallRange 0 20; CallRange 20 40; CallRange 40 45]
       readyWorld).
Proof. vm_compute. reflexivity. Qed.

(** ** Which part of the ledger a search can see *)

Lemma ledgerSlice_take ledger (B start end_ : Z) :
  end_ ≤ B →
  ledgerSlice (take (Z.to_nat B) ledger) start end_ = ledgerSlice ledger start end_.
Proof.
  intros Hend. unfold ledgerSlice.
  rewrite skipn_firstn_comm, take_take. f_equal. lia.
Qed.

Lemma gathered_take_bound ledger faulty B (n k : nat) :
  gathered (ledgerClient (take (Z.to_nat B) ledger) faulty) (windows B k n)
  = gathered (ledgerClient ledger faulty) (windows B k n).
Proof.
  revert k. induction n as [|n IH]; intros k; [done|].
  rewrite !windows_S, !gathered_cons, IH. f_equal.
  unfold batchOf, window, ledgerClient; simpl.
  destruct (faulty _ _); [done|].
  apply ledgerSlice_take. lia.
Qed.

Lemma gathered_within_bound ledger faulty B (n : nat) :
  gathered (ledgerClient ledger faulty) (windows B 0 n)
    `sublist_of` take (Z.to_nat B) ledger.
Proof.
  rewrite <- gathered_take_bound.
  apply (gathered_ledger_sublist (take (Z.to_nat B) ledger) faulty B n 0).
Qed.

(** What [searchSelect] returns over a ledger-backed client comes from the
    first min(total, limit*3) entries of the ledger. *)
Lemma searchSelect_within_bound ledger faulty args w sel w' :
  searchSelect (ledgerClient ledger faulty) args w = (Returned sel, w') →
  selected sel
    `sublist_of` take (Z.to_nat (Z.min (Z.of_nat (length ledger))
                                   (limitOf args * 3))) ledger.
Proof.
  intros Hsel.
  destruct (eaccClient w) eqn:Hclient.
  - destruct (decide (Z.of_nat (length ledger) = 0)) as [Hempty|Hne].
    + unfold searchSelect, bind, requireClient, getJobsLength in Hsel.
      rewrite Hclient in Hsel. simpl in Hsel. rewrite Hempty in Hsel.
      injection Hsel as <- _. apply sublist_nil_l.
    + destruct (searchSelect_run (ledgerClient ledger faulty) args w
                  (Z.of_nat (length ledger)) Hclient eq_refl Hne)
        as (n & Hrun & _).
      rewrite Hrun in Hsel. injection Hsel as <- _. simpl.
      etrans; [apply selectJobs_sublist|]. apply gathered_within_bound.
  - unfold searchSelect, bind, requireClient in Hsel.
    by rewrite Hclient in Hsel.
Qed.

(** X7.  Over a ledger-backed client, every job [search_jobs] selects is one
    of the first min(total, limit*3) entries of the ledger, in their order:
    newer jobs are never found, however well they match.  And if the ledger's
    ids are pairwise distinct, so are the ids of the selected jobs: no job is
    returned twice. *)
Theorem search_jobs_sees_oldest_only
    (ledger : list Job.t) (faulty : Z -> Z -> option Thrown)
    (args : ToolArgs) (w w' : World) (sel : Selection) :
  searchSelect (ledgerClient ledger faulty) args w = (Returned sel, w') →
  selected sel
    `sublist_of` take (Z.to_nat (Z.min (Z.of_nat (length ledger))
                                   (limitOf args * 3))) ledger
  ∧ (NoDup (Job.id <$> ledger) → NoDup (Job.id <$> selected sel)).
Proof.
  intros Hsel.
  pose proof (searchSelect_within_bound _ _ _ _ _ _ Hsel) as Hsub.
  split; [exact Hsub|].
  intros Hnodup. apply (sublist_NoDup _ (Job.id <$> ledger)); [done|].
  apply fmap_sublist. etrans; [exact Hsub | apply sublist_take].
Qed.

Lemma search_jobs_sees_oldest_only_witness :
  searchSelect (ledgerClient fiveJobs noFault)
    (searchArgs (Some "open") None (Some 1)) readyWorld
  = (Returned (Selected 5 [sampleJob 0 (Some "open")]),
     after [CallLength; CallRange 0 3] readyWorld)
  ∧ selected (Selected 5 [sampleJob 0 (Some "open")])
      `sublist_of` take (Z.to_nat (Z.min (Z.of_nat (length fiveJobs))
                                     (limitOf (searchArgs (Some "open") None (Some 1))
                                      * 3))) fiveJobs
  ∧ (NoDup (Job.id <$> fiveJobs) →
     NoDup (Job.id <$> selected (Selected 5 [sampleJob 0 (Some "open")]))).
Proof.
  split; [vm_compute; reflexivity|].
  apply (search_jobs_sees_oldest_only fiveJobs noFault
           (searchArgs (Some "open") None (Some 1)) readyWorld
           (after [CallLength; CallRange 0 3] readyWorld)
           (Selected 5 [sampleJob 0 (Some "open")])).
  vm_compute. reflexivity.
Defined.

(** The only "taken" job of the example ledger sits at index 4; a search for
    it with limit 1 scans indices 0..2 and finds nothing. *)
Example search_misses_newer_match :
  fst (searchJobs (ledgerClient fiveJobs noFault)
         (searchArgs (Some "taken") None (Some 1)) readyWorld)
  = Returned
      (textResponse
         "No jobs found matching your criteria (status: taken, category: any).").
Proof. vm_compute. reflexivity. Qed.

(** ** A scan without failures *)

(** With every request served, [n] windows gather the ledger's first
    min(bound, 20n) jobs. *)
Lemma gathered_served ledger faulty (B : Z) (n : nat) :
  (∀ s e, faulty s e = None) →
  0 ≤ B →
  gathered (ledgerClient ledger faulty) (windows B 0 n)
  = take (Z.to_nat (Z.min B (20 * Z.of_nat n))) ledger.
Proof.
  intros Hok HB. induction n as [|n IH].
  - replace (Z.to_nat (Z.min B (20 * Z.of_nat 0))) with 0%nat by lia. done.
  - rewrite windows_snoc, gathered_app, IH, gathered_cons, app_nil_r.
    unfold batchOf, window, ledgerClient; simpl. rewrite Hok.
    unfold ledgerSlice, batchSize.
    destruct (Z.le_gt_cases B (20 * Z.of_nat n)) as [Hle|Hgt].
    + replace (Z.to_nat (Z.min (20 * Z.of_nat n + 20) B)
               - Z.to_nat (20 * Z.of_nat n))%nat with 0%nat by lia.
      rewrite take_0, app_nil_r. f_equal. lia.
    + replace (Z.to_nat (Z.min B (20 * Z.of_nat n)))
        with (Z.to_nat (20 * Z.of_nat n)) by lia.
      rewrite take_take_drop. f_equal. lia.
Qed.

(** The selection of [searchJobs] over a ledger all of whose range requests
    are served. *)
Lemma searchSelect_served ledger faulty args w :
  0 < limitOf args →
  (1 ≤ length ledger)%nat →
  eaccClient w = true →
  (∀ s e, faulty s e = None) →
  ∃ n : nat,
    searchSelect (ledgerClient ledger faulty) args w
    = (Returned
         (Selected (Z.of_nat (length ledger))
            (take (Z.to_nat (limitOf args))
               (applyFilters (arg_status args) (arg_category args)
                  (take (Z.to_nat (Z.min (Z.min (Z.of_nat (length ledger))
                                            (limitOf args * 3))
                                     (20 * Z.of_nat n))) ledger)))),
       after (CallLength ::
              ((fun k : nat =>
                  CallRange (20 * Z.of_nat k)
                    (Z.min (20 * Z.of_nat k + 20)
                       (Z.min (Z.of_nat (length ledger)) (limitOf args * 3))))
                 <$> seq 0 n)) w)
    ∧ 20 * (Z.of_nat n - 1) < Z.min (Z.of_nat (length ledger)) (limitOf args)
    ∧ Z.min (Z.of_nat (length ledger)) (limitOf args) ≤ 20 * Z.of_nat n.
Proof.
  intros Hlimit Hlen Hclient Hok.
  destruct (searchSelect_run (ledgerClient ledger faulty) args w
              (Z.of_nat (length ledger)) Hclient eq_refl)
    as (n & Hrun & Hbefore & Hafter); [lia|].
  unfold maxJobsToFetchOf, continues, batchSize in *.
  set (B := Z.min (Z.of_nat (length ledger)) (limitOf args * 3)) in *.
  assert (HB : 0 ≤ B) by lia.
  assert (Hcount : ∀ m : nat,
            Z.of_nat (length (gathered (ledgerClient ledger faulty)
                                (windows B 0 m)))
            = Z.min B (20 * Z.of_nat m)).
  { intros m. rewrite (gathered_served ledger faulty B m Hok HB), length_take.
    lia. }
  exists n. split; [|split].
  - rewrite Hrun, rangeCalls_windows. unfold selectJobs.
    rewrite slice0_take by lia.
    by rewrite (gathered_served ledger faulty B n Hok HB).
  - destruct n as [|n]; [lia|].
    destruct (Hbefore n) as [Hstart Hfetched]; [lia|].
    rewrite Hcount in Hfetched. lia.
  - rewrite Hcount in Hafter. lia.
Qed.

(** X8.  When no range request fails (limit > 0, total ≥ 1), [search_jobs]
    makes n = ceil(min(total, limit) / 20) range requests and selects the first
    [limit] jobs that pass the filters among the ledger's first
    min(total, limit*3, 20n) entries.  So the factor 3 widens the scan only up
    to the end of the chunk in which [limit] fetched jobs are reached: with a
    limit of at most 20, a single request is made and only the first
    min(total, limit*3, 20) entries are looked at. *)
Theorem search_jobs_served_scan
    (ledger : list Job.t) (faulty : Z -> Z -> option Thrown)
    (args : ToolArgs) (w : World) :
  0 < limitOf args →
  (1 ≤ length ledger)%nat →
  eaccClient w = true →
  (∀ s e, faulty s e = None) →
  ∃ n : nat,
    searchSelect (ledgerClient ledger faulty) args w
    = (Returned
         (Selected (Z.of_nat (length ledger))
            (take (Z.to_nat (limitOf args))
               (applyFilters (arg_status args) (arg_category args)
                  (take (Z.to_nat (Z.min (Z.min (Z.of_nat (length ledger))
                                            (limitOf args * 3))
                                     (20 * Z.of_nat n))) ledger)))),
       after (CallLength ::
              ((fun k : nat =>
                  CallRange (20 * Z.of_nat k)
                    (Z.min (20 * Z.of_nat k + 20)
                       (Z.min (Z.of_nat (length ledger)) (limitOf args * 3))))
                 <$> seq 0 n)) w)
    ∧ 20 * (Z.of_nat n - 1) < Z.min (Z.of_nat (length ledger)) (limitOf args)
    ∧ Z.min (Z.of_nat (length ledger)) (limitOf args) ≤ 20 * Z.of_nat n
    ∧ (limitOf args ≤ 20 → n = 1%nat).
Proof.
  intros Hlimit Hlen Hclient Hok.
  destruct (searchSelect_served ledger faulty args w Hlimit Hlen Hclient Hok)
    as (n & Hrun & Hlow & Hhigh).
  exists n. split; [exact Hrun|]. split; [exact Hlow|]. split; [exact Hhigh|].
  intros Hsmall. lia.
Qed.

Lemma search_jobs_served_scan_witness :
  0 < limitOf (searchArgs (Some "open") None None)
  ∧ (1 ≤ length mixedLedger)%nat
  ∧ eaccClient readyWorld = true
  ∧ (∀ s e, noFault s e = None)
  ∧ ∃ n : nat,
      searchSelect (ledgerClient mixedLedger noFault)
        (searchArgs (Some "open") None None) readyWorld
      = (Returned
           (Selected (Z.of_nat (length mixedLedger))
              (take (Z.to_nat (limitOf (searchArgs (Some "open") None None)))
                 (applyFilters (arg_status (searchArgs (Some "open") None None))
                    (arg_category (searchArgs (Some "open") None None))
                    (take (Z.to_nat
                             (Z.min (Z.min (Z.of_nat (length mixedLedger))
                                       (limitOf (searchArgs (Some "open") None None)
                                        * 3))
                                (20 * Z.of_nat n))) mixedLedger)))),
         after (CallLength ::
                ((fun k : nat =>
                    CallRange (20 * Z.of_nat k)
                      (Z.min (20 * Z.of_nat k + 20)
                         (Z.min (Z.of_nat (length mixedLedger))
                            (limitOf (searchArgs (Some "open") None None) * 3))))
                   <$> seq 0 n)) readyWorld)
      ∧ 20 * (Z.of_nat n - 1)
        < Z.min (Z.of_nat (length mixedLedger))
            (limitOf (searchArgs (Some "open") None None))
      ∧ Z.min (Z.of_nat (length mixedLedger))
          (limitOf (searchArgs (Some "open") None None))
        ≤ 20 * Z.of_nat n
      ∧ (limitOf (searchArgs (Some "open") None None) ≤ 20 → n = 1%nat).
Proof.
  split; [reflexivity|]. split; [vm_compute; lia|]. split; [reflexivity|].
  split; [reflexivity|].
  apply (search_jobs_served_scan mixedLedger noFault
           (searchArgs (Some "open") None None) readyWorld);
    [reflexivity | vm_compute; lia | reflexivity | reflexivity].
Defined.

(** With the default limit of 10 and forty-five jobs, one request for
    [0, 20) is all the scan does. *)
Example search_default_limit_requests :
  snd (searchJobs (ledgerClient mixedLedger noFault)
         (searchArgs (Some "open") None None) readyWorld)
  = after [CallLength; CallRange 0 20] readyWorld.
Proof. vm_compute. reflexivity. Qed.

(** ** [search_jobs] and [get_recent_jobs] side by side *)

(** X9.  When the limit covers the whole ledger (limit ≥ total ≥ 1), no
    filter is given and no request fails, [search_jobs] lists the entire ledger
    oldest first and [get_recent_jobs] lists the same jobs newest first: one
    list is the reverse of the other. *)
Theorem search_and_recent_mirror
    (ledger : list Job.t) (faulty : Z -> Z -> option Thrown)
    (args : ToolArgs) (w : World) :
  (1 ≤ length ledger)%nat →
  Z.of_nat (length ledger) ≤ limitOf args →
  arg_status args = None →
  arg_category args = None →
  eaccClient w = true →
  (∀ s e, faulty s e = None) →
  fst (searchSelect (ledgerClient ledger faulty) args w)
  = Returned (Selected (Z.of_nat (length ledger)) ledger)
  ∧ fst (recentSelect (ledgerClient ledger faulty) args w)
    = Returned (Selected (Z.of_nat (length ledger)) (reverse ledger)).
Proof.
  intros Hlen Hlimit Hstatus Hcategory Hclient Hok.
  assert (Hpos : 0 < limitOf args) by lia.
  split.
  - destruct (searchSelect_served ledger faulty args w Hpos Hlen Hclient Hok)
      as (n & Hrun & _ & Hhigh).
    rewrite Hrun, Hstatus, Hcategory. simpl. do 2 f_equal.
    unfold applyFilters, filterByCategory, filterByStatus. simpl.
    by rewrite !take_ge by (rewrite ?length_take; lia).
  - rewrite (recent_ledger_run ledger faulty args w Hpos Hlen Hclient (Hok _ _)).
    simpl. do 3 f_equal.
    replace (length ledger - Z.to_nat (limitOf args))%nat with 0%nat by lia.
    done.
Qed.

Lemma search_and_recent_mirror_witness :
  (1 ≤ length fiveJobs)%nat
  ∧ Z.of_nat (length fiveJobs) ≤ limitOf (searchArgs None None None)
  ∧ arg_status (searchArgs None None None) = None
  ∧ arg_category (searchArgs None None None) = None
  ∧ eaccClient readyWorld = true
  ∧ (∀ s e, noFault s e = None)
  ∧ fst (searchSelect (ledgerClient fiveJobs noFault) (searchArgs None None None)
           readyWorld)
    = Returned (Selected (Z.of_nat (length fiveJobs)) fiveJobs)
  ∧ fst (recentSelect (ledgerClient fiveJobs noFault) (searchArgs None None None)
           readyWorld)
    = Returned (Selected (Z.of_nat (length fiveJobs)) (reverse fiveJobs)).
Proof.
  split; [simpl; lia|]. split; [vm_compute; discriminate|].
  split; [reflexivity|]. split; [reflexivity|]. split; [reflexivity|].
  split; [reflexivity|].
  apply (search_and_recent_mirror fiveJobs noFault (searchArgs None None None)
           readyWorld);
    [simpl; lia | vm_compute; discriminate | reflexivity | reflexivity
    | reflexivity | reflexivity].
Defined.

(** ** [get_recent_jobs] with a limit that is not positive *)

(** X10.  With a limit ≤ 0 on a ledger of total > 0 jobs, [get_recent_jobs]
    still makes its range request, for the window [total - limit, total) whose
    start is not below its end; when the client serves that window with no
    job, the answer is "No recent jobs found." *)
Theorem get_recent_jobs_nonpositive_limit
    (toLocaleString : Z -> string) (client : EACCClient)
    (args : ToolArgs) (w : World) (total : Z) :
  eaccClient w = true →
  jobsLength client = Returned total →
  0 < total →
  limitOf args ≤ 0 →
  jobsRange client (total - limitOf args) total = Returned [] →
  total ≤ total - limitOf args
  ∧ getRecentJobs toLocaleString client args w
    = (Returned (textResponse "No recent jobs found."),
       after [CallLength; CallRange (total - limitOf args) total] w).
Proof.
  intros Hclient Hlen Htotal Hlimit Hrange. split; [lia|].
  unfold getRecentJobs, getRecentJobsTry, tryCatch, bind.
  rewrite (recentSelect_run client args w total Hclient Hlen) by lia.
  replace (Z.max 0 (total - limitOf args)) with (total - limitOf args) by lia.
  by rewrite Hrange.
Qed.

Lemma get_recent_jobs_nonpositive_limit_witness :
  eaccClient readyWorld = true
  ∧ jobsLength (ledgerClient fiveJobs noFault) = Returned 5
  ∧ 0 < 5
  ∧ limitOf (searchArgs None None (Some (-2))) ≤ 0
  ∧ jobsRange (ledgerClient fiveJobs noFault)
      (5 - limitOf (searchArgs None None (Some (-2)))) 5 = Returned []
  ∧ 5 ≤ 5 - limitOf (searchArgs None None (Some (-2)))
  ∧ getRecentJobs pretty (ledgerClient fiveJobs noFault)
      (searchArgs None None (Some (-2))) readyWorld
    = (Returned (textResponse "No recent jobs found."),
       after [CallLength;
              CallRange (5 - limitOf (searchArgs None None (Some (-2)))) 5]
         readyWorld).
Proof.
  split; [reflexivity|]. split; [reflexivity|]. split; [lia|].
  split; [unfold limitOf; simpl; lia|]. split; [reflexivity|].
  apply (get_recent_jobs_nonpositive_limit pretty (ledgerClient fiveJobs noFault)
           (searchArgs None None (Some (-2))) readyWorld 5);
    [reflexivity | reflexivity | lia | unfold limitOf; simpl; lia | reflexivity].
Defined.

(** ** [get_job_details] *)

Lemma orElseVal_cases (o : option Js.Value) (dflt : string) :
  (Js.truthyVal o = false → orElseVal o dflt = dflt)
  ∧ (∀ v, o = Some v → Js.truthyVal (Some v) = true → orElseVal o dflt = Js.show v).
Proof.
  unfold orElseVal. split.
  - destruct o as [v|]; [|done]. by intros ->.
  - by intros v -> ->.
Qed.

Lemma orElse_cases (o : option string) (dflt : string) :
  (Js.truthy o = false → Js.orElse o dflt = dflt)
  ∧ (∀ s, o = Some s → s ≠ "" → Js.orElse o dflt = s).
Proof.
  unfold Js.orElse, Js.truthy, Js.truthyStr. split.
  - destruct o as [s|]; [|done]. by intros ->.
  - intros s -> Hs. by destruct (String.eqb_spec s "").
Qed.

(** X11.  For a job the client finds, [get_job_details] answers with a block
    of eight lines: a heading with the requested id, then title, content hash,
    payment, status and owner, then a line for the worker, then the creation
    time.  A field that is absent, or present but falsy (an empty text, the
    number 0), is replaced by its placeholder: "Untitled",
    "No content available", "TBD", "Unknown"; the worker line is left empty
    when there is no worker. *)
Theorem get_job_details_block
    (toLocaleString : Z -> string) (client : EACCClient)
    (args : ToolArgs) (w : World) (job : Job.t) :
  eaccClient w = true →
  jobById client (arg_jobId args) = Returned (Some job) →
  ∃ titleText hashText paymentText statusText ownerText workerLine createdLine
      : string,
    getJobDetails toLocaleString client args w
    = (Returned
         (textResponse
            ("Job #" +:+ Js.showOptZ (arg_jobId args) +:+ " Details:" +:+ Js.nl +:+
             "Title: " +:+ titleText +:+ Js.nl +:+
             "Content hash: " +:+ hashText +:+ Js.nl +:+
             "Payment: " +:+ paymentText +:+ Js.nl +:+
             "Status: " +:+ statusText +:+ Js.nl +:+
             "Owner: " +:+ ownerText +:+ Js.nl +:+
             workerLine +:+ Js.nl +:+
             "Created: " +:+ createdLine)),
       after [CallById (arg_jobId args)] w)
    ∧ (Js.truthy (Job.title job) = false → titleText = "Untitled")
    ∧ (∀ t, Job.title job = Some t → t ≠ "" → titleText = t)
    ∧ (Js.truthyVal (Job.contentHash job) = false →
       hashText = "No content available")
    ∧ (∀ v, Job.contentHash job = Some v → Js.truthyVal (Some v) = true →
         hashText = Js.show v)
    ∧ (Js.truthyVal (Job.amount job) = false → paymentText = "TBD")
    ∧ (∀ v, Job.amount job = Some v → Js.truthyVal (Some v) = true →
         paymentText = Js.show v)
    ∧ (Js.truthyVal (Job.state job) = false → statusText = "Unknown")
    ∧ (∀ v, Job.state job = Some v → Js.truthyVal (Some v) = true →
         statusText = Js.show v)
    ∧ (Js.truthy (Job.roles job ≫= Roles.creator) = false → ownerText = "Unknown")
    ∧ (∀ r a, Job.roles job = Some r → Roles.creator r = Some a → a ≠ "" →
         ownerText = a)
    ∧ (Js.truthy (Job.roles job ≫= Roles.worker) = false → workerLine = "")
    ∧ (∀ r a, Job.roles job = Some r → Roles.worker r = Some a → a ≠ "" →
         workerLine = "Worker: " +:+ a)
    ∧ (Job.timestamp job = None ∨ Job.timestamp job = Some 0 →
       createdLine = "Unknown")
    ∧ (∀ ts, Job.timestamp job = Some ts → ts ≠ 0 →
         createdLine = toLocaleString (ts * 1000)).
Proof.
  intros Hclient Hjob.
  exists (untitled job),
    (orElseVal (Job.contentHash job) "No content available"),
    (orElseVal (Job.amount job) "TBD"),
    (orElseVal (Job.state job) "Unknown"),
    (Js.orElse (Job.roles job ≫= Roles.creator) "Unknown"),
    (if Js.truthy (Job.roles job ≫= Roles.worker)
     then "Worker: " +:+ default "" (Job.roles job ≫= Roles.worker) else ""),
    (createdText toLocaleString job).
  split.
  { unfold getJobDetails, getJobDetailsTry,
      tryCatch, bind, requireClient, getJob.
    by rewrite Hclient, Hjob. }
  destruct (orElse_cases (Job.title job) "Untitled") as [Ht1 Ht2].
  destruct (orElseVal_cases (Job.contentHash job) "No content available")
    as [Hh1 Hh2].
  destruct (orElseVal_cases (Job.amount job) "TBD") as [Ha1 Ha2].
  destruct (orElseVal_cases (Job.state job) "Unknown") as [Hs1 Hs2].
  destruct (orElse_cases (Job.roles job ≫= Roles.creator) "Unknown") as [Ho1 Ho2].
  repeat split; try assumption.
  - intros r a Hr Ha Hne. apply Ho2; [|done]. by rewrite Hr.
  - by intros ->.
  - intros r a Hr Ha Hne. rewrite Hr. simpl. rewrite Ha. simpl.
    unfold Js.truthyStr. by destruct (String.eqb_spec a "").
  - unfold createdText. by intros [-> | ->].
  - intros ts Hts Hne. unfold createdText. rewrite Hts.
    by destruct (Z.eqb_spec ts 0).
Qed.

Lemma get_job_details_block_witness :
  eaccClient readyWorld = true
  ∧ jobById (ledgerClient [detailedJob] noFault) (arg_jobId (detailsArgs (Some 0)))
    = Returned (Some detailedJob)
  ∧ ∃ titleText hashText paymentText statusText ownerText workerLine createdLine
        : string,
      getJobDetails pretty (ledgerClient [detailedJob] noFault)
        (detailsArgs (Some 0)) readyWorld
      = (Returned
           (textResponse
              ("Job #" +:+ Js.showOptZ (arg_jobId (detailsArgs (Some 0))) +:+
               " Details:" +:+ Js.nl +:+
               "Title: " +:+ titleText +:+ Js.nl +:+
               "Content hash: " +:+ hashText +:+ Js.nl +:+
               "Payment: " +:+ paymentText +:+ Js.nl +:+
               "Status: " +:+ statusText +:+ Js.nl +:+
               "Owner: " +:+ ownerText +:+ Js.nl +:+
               workerLine +:+ Js.nl +:+
               "Created: " +:+ createdLine)),
         after [CallById (arg_jobId (detailsArgs (Some 0)))] readyWorld)
      ∧ (Js.truthy (Job.title detailedJob) = false → titleText = "Untitled")
      ∧ (∀ t, Job.title detailedJob = Some t → t ≠ "" → titleText = t)
      ∧ (Js.truthyVal (Job.contentHash detailedJob) = false →
         hashText = "No content available")
      ∧ (∀ v, Job.contentHash detailedJob = Some v → Js.truthyVal (Some v) = true →
           hashText = Js.show v)
      ∧ (Js.truthyVal (Job.amount detailedJob) = false → paymentText = "TBD")
      ∧ (∀ v, Job.amount detailedJob = Some v → Js.truthyVal (Some v) = true →
           paymentText = Js.show v)
      ∧ (Js.truthyVal (Job.state detailedJob) = false → statusText = "Unknown")
      ∧ (∀ v, Job.state detailedJob = Some v → Js.truthyVal (Some v) = true →
           statusText = Js.show v)
      ∧ (Js.truthy (Job.roles detailedJob ≫= Roles.creator) = false →
         ownerText = "Unknown")
      ∧ (∀ r a, Job.roles detailedJob = Some r → Roles.creator r = Some a →
           a ≠ "" → ownerText = a)
      ∧ (Js.truthy (Job.roles detailedJob ≫= Roles.worker) = false →
         workerLine = "")
      ∧ (∀ r a, Job.roles detailedJob = Some r → Roles.worker r = Some a →
           a ≠ "" → workerLine = "Worker: " +:+ a)
      ∧ (Job.timestamp detailedJob = None ∨ Job.timestamp detailedJob = Some 0 →
         createdLine = "Unknown")
      ∧ (∀ ts, Job.timestamp detailedJob = Some ts → ts ≠ 0 →
           createdLine = pretty (ts * 1000)).
Proof.
  split; [reflexivity|]. split; [reflexivity|].
  apply (get_job_details_block pretty (ledgerClient [detailedJob] noFault)
           (detailsArgs (Some 0)) readyWorld detailedJob);
    reflexivity.
Defined.

(** The state 0 is falsy, so it is shown as "Unknown"; the worker line is
    empty. *)
Example details_text_of_sample :
  fst (getJobDetails pretty (ledgerClient [detailedJob] noFault)
         (detailsArgs (Some 0)) readyWorld)
  = Returned
      (textResponse
         ("Job #0 Details:" +:+ Js.nl +:+
          "Title: Translate docs" +:+ Js.nl +:+
          "Content hash: Qm123" +:+ Js.nl +:+
          "Payment: 5000" +:+ Js.nl +:+
          "Status: Unknown" +:+ Js.nl +:+
          "Owner: 0xabc" +:+ Js.nl +:+
          "" +:+ Js.nl +:+
          "Created: 1700000000000")).
Proof. vm_compute. reflexivity. Qed.

(** The specification's example: id 999 on a ledger of five jobs. *)
Example details_of_unknown_id :
  fst (getJobDetails pretty (ledgerClient fiveJobs noFault)
         (detailsArgs (Some 999)) readyWorld)
  = Returned (textResponse "Job #999 not found.").
Proof. vm_compute. reflexivity. Qed.

Lemma append_assoc (a b c : string) : (a +:+ b) +:+ c = a +:+ b +:+ c.
Proof.
  induction a as [|x a IH]; [done|].
  change (String x ((a +:+ b) +:+ c) = String x (a +:+ b +:+ c)). by f_equal.
Qed.

Lemma prefix_of_append (p q : string) : String.prefix p (p +:+ q) = true.
Proof. apply prefix_append. by exists q. Qed.

(** X12.  [get_job_details] makes exactly one request to the client, the
    lookup of the id it was given, and never asks for the count or for a
    range.  When the lookup is served, the answer begins "Job #<id>", the id
    printed as "undefined" when the argument is missing; a null result gives
    "Job #<id> not found." and is not reported as a failure. *)
Theorem get_job_details_single_lookup
    (toLocaleString : Z -> string) (client : EACCClient)
    (args : ToolArgs) (w : World) :
  eaccClient w = true →
  ∃ t : string,
    getJobDetails toLocaleString client args w
    = (Returned (textResponse t), after [CallById (arg_jobId args)] w)
    ∧ (∀ found, jobById client (arg_jobId args) = Returned found →
         String.prefix ("Job #" +:+ Js.showOptZ (arg_jobId args)) t = true
         ∧ String.prefix "Failed to" t = false)
    ∧ (jobById client (arg_jobId args) = Returned None →
       t = "Job #" +:+ Js.showOptZ (arg_jobId args) +:+ " not found.")
    ∧ (arg_jobId args = None →
       ∀ found, jobById client None = Returned found →
         String.prefix "Job #undefined" t = true).
Proof.
  intros Hclient.
  unfold getJobDetails, getJobDetailsTry,
    tryCatch, bind, requireClient, getJob. rewrite Hclient.
  destruct (jobById client (arg_jobId args)) as [[job|]|e] eqn:Hjob.
  - eexists. split; [reflexivity|]. split; [|split].
    + intros found _. split; [|reflexivity].
      unfold detailsText. cbv zeta.
      rewrite <- (append_assoc "Job #" (Js.showOptZ (arg_jobId args))).
      apply prefix_of_append.
    + done.
    + intros Hid found _. rewrite Hid. reflexivity.
  - eexists. split; [reflexivity|]. split; [|split].
    + intros found _. split; [|reflexivity].
      rewrite <- (append_assoc "Job #" (Js.showOptZ (arg_jobId args))).
      apply prefix_of_append.
    + done.
    + intros Hid found _. rewrite Hid. reflexivity.
  - eexists. split; [reflexivity|]. split; [|split].
    + by intros found [=].
    + by intros [=].
    + intros Hid found Hfound. rewrite Hid in Hjob. congruence.
Qed.

Lemma get_job_details_single_lookup_witness :
  eaccClient readyWorld = true
  ∧ ∃ t : string,
      getJobDetails pretty (ledgerClient fiveJobs noFault) (detailsArgs None)
        readyWorld
      = (Returned (textResponse t),
         after [CallById (arg_jobId (detailsArgs None))] readyWorld)
      ∧ (∀ found,
           jobById (ledgerClient fiveJobs noFault) (arg_jobId (detailsArgs None))
           = Returned found →
           String.prefix ("Job #" +:+ Js.showOptZ (arg_jobId (detailsArgs None))) t
           = true
           ∧ String.prefix "Failed to" t = false)
      ∧ (jobById (ledgerClient fiveJobs noFault) (arg_jobId (detailsArgs None))
         = Returned None →
         t = "Job #" +:+ Js.showOptZ (arg_jobId (detailsArgs None)) +:+ " not found.")
      ∧ (arg_jobId (detailsArgs None) = None →
         ∀ found, jobById (ledgerClient fiveJobs noFault) None = Returned found →
           String.prefix "Job #undefined" t = true).
Proof.
  split; [reflexivity|].
  apply (get_job_details_single_lookup pretty (ledgerClient fiveJobs noFault)
           (detailsArgs None) readyWorld).
  reflexivity.
Defined.

(** ** Initialisation across calls *)

(** X13.  On a server whose client is not set up yet: if the fault comes
    before the client object is assigned, the call answers
    "Error: <message>" and leaves the server as it was, so the next call tries
    again; if the fault comes from connecting, the call answers
    "Error: <message>" too but the client object stays in place, so the next
    call skips the set-up and runs its operation on that client (here: a
    count request is made and answered). *)
Theorem initialization_after_a_fault
    (toLocaleString : Z -> string) (client : EACCClient)
    (name : string) (args : option ToolArgs) (w : World) (e : Thrown) :
  eaccClient w = false →
  (initOutcome client = ConstructFails e →
   callTool toLocaleString client name args w
   = (Returned (textResponse ("Error: " +:+ errorText e)), w))
  ∧ (initOutcome client = ConnectFails e →
     callTool toLocaleString client name args w
     = (Returned (textResponse ("Error: " +:+ errorText e)), initialized w)
     ∧ eaccClient (initialized w) = true
     ∧ ∀ count, jobsLength client = Returned count →
         callTool toLocaleString client "get_job_count" args (initialized w)
         = (Returned (textResponse ("There are currently " +:+ pretty count +:+
                                    " jobs on the EACC marketplace.")),
            after [CallLength] (initialized w))).
Proof.
  intros Hc. split.
  - intros Hinit.
    unfold callTool, tryCatch, bind at 1, initializeEACCClient.
    by rewrite Hc, Hinit.
  - intros Hinit. split; [|split; [reflexivity|]].
    + unfold callTool, tryCatch, bind at 1, initializeEACCClient.
      by rewrite Hc, Hinit.
    + intros count Hcount.
      rewrite (callTool_dispatch toLocaleString client "get_job_count" args
                 (initialized w)) by (by left).
      simpl String.eqb. cbv iota.
      change (initialized (initialized w)) with (initialized w).
      by apply getJobCount_run.
Qed.

Lemma initialization_after_a_fault_witness :
  eaccClient freshWorld = false
  ∧ (initOutcome (withInit (ConnectFails (ErrorObj "network down"))
                    (ledgerClient fiveJobs noFault))
     = ConstructFails (ErrorObj "network down") →
     callTool pretty
       (withInit (ConnectFails (ErrorObj "network down"))
          (ledgerClient fiveJobs noFault))
       "get_job_count" (Some (searchArgs None None None)) freshWorld
     = (Returned (textResponse ("Error: " +:+ errorText (ErrorObj "network down"))),
        freshWorld))
  ∧ (initOutcome (withInit (ConnectFails (ErrorObj "network down"))
                    (ledgerClient fiveJobs noFault))
     = ConnectFails (ErrorObj "network down") →
     callTool pretty
       (withInit (ConnectFails (ErrorObj "network down"))
          (ledgerClient fiveJobs noFault))
       "get_job_count" (Some (searchArgs None None None)) freshWorld
     = (Returned (textResponse ("Error: " +:+ errorText (ErrorObj "network down"))),
        initialized freshWorld)
     ∧ eaccClient (initialized freshWorld) = true
     ∧ ∀ count,
         jobsLength (withInit (ConnectFails (ErrorObj "network down"))
                       (ledgerClient fiveJobs noFault))
         = Returned count →
         callTool pretty
           (withInit (ConnectFails (ErrorObj "network down"))
              (ledgerClient fiveJobs noFault))
           "get_job_count" (Some (searchArgs None None None)) (initialized freshWorld)
         = (Returned (textResponse ("There are currently " +:+ pretty count +:+
                                    " jobs on the EACC marketplace.")),
            after [CallLength] (initialized freshWorld))).
Proof.
  split; [reflexivity|].
  apply (initialization_after_a_fault pretty
           (withInit (ConnectFails (ErrorObj "network down"))
              (ledgerClient fiveJobs noFault))
           "get_job_count" (Some (searchArgs None None None)) freshWorld
           (ErrorObj "network down")).
  reflexivity.
Defined.

(** Two calls in a row on a client that cannot connect: an error, then a
    count. *)
Example count_after_failed_connect :
  let client := withInit (ConnectFails (ErrorObj "network down"))
                  (ledgerClient fiveJobs noFault) in
  let first := callTool pretty client "get_job_count"
                 (Some (searchArgs None None None)) freshWorld in
  fst first = Returned (textResponse "Error: network down")
  ∧ fst (callTool pretty client "get_job_count" (Some (searchArgs None None None))
           (snd first))
    = Returned (textResponse "There are currently 5 jobs on the EACC marketplace.").
Proof. vm_compute. split; reflexivity. Qed.

(** ** The tool list and the dispatcher *)







(** ** What a tool call does to the server *)

Lemma getJobCount_world client args v :
  ∃ cs, snd (getJobCount client v) = after cs v ∧ requestShape args cs.
Proof.
  unfold getJobCount, getJobCountTry,
    tryCatch, bind, requireClient, getJobsLength, ret.
  destruct (eaccClient v).
  - exists [CallLength]. split; [by destruct (jobsLength client)|].
    right; right. by exists [].
  - exists []. split; [by rewrite after_nil | by left].
Qed.

Lemma searchJobs_world client args v :
  ∃ cs, snd (searchJobs client args v) = after cs v
        ∧ requestShape (Some args) cs.
Proof.
  destruct (eaccClient v) eqn:Hc.
  - destruct (jobsLength client) as [total|e] eqn:Hlen.
    + destruct (decide (total = 0)) as [->|Hne].
      * exists [CallLength]. split; [|right; right; by exists []].
        unfold searchJobs, searchJobsTry,
          tryCatch, bind, searchSelect, bind, requireClient,
          getJobsLength.
        by rewrite Hc, Hlen.
      * destruct (searchSelect_run client args v total Hc Hlen Hne)
          as (n & Hrun & _).
        eexists. split.
        { by rewrite (searchJobs_of_select _ _ _ _ _ Hrun). }
        right; right. by eexists.
    + exists [CallLength]. split; [|right; right; by exists []].
      by rewrite (searchJobs_fault client args v e Hc Hlen).
  - exists []. split; [|by left].
    unfold searchJobs, searchJobsTry,
      tryCatch, bind, searchSelect, bind, requireClient.
    rewrite Hc. simpl. by rewrite after_nil.
Qed.

Lemma getJobDetails_world toLocaleString client args v :
  ∃ cs, snd (getJobDetails toLocaleString client args v) = after cs v
        ∧ requestShape (Some args) cs.
Proof.
  unfold getJobDetails, getJobDetailsTry,
    tryCatch, bind, requireClient, getJob, ret.
  destruct (eaccClient v).
  - exists [CallById (arg_jobId args)]. split; [|right; left; by exists args].
    by destruct (jobById client (arg_jobId args)) as [[job|]|e].
  - exists []. split; [by rewrite after_nil | by left].
Qed.

Lemma getRecentJobs_world toLocaleString client args v :
  ∃ cs, snd (getRecentJobs toLocaleString client args v) = after cs v
        ∧ requestShape (Some args) cs.
Proof.
  destruct (eaccClient v) eqn:Hc.
  - destruct (jobsLength client) as [total|e] eqn:Hlen.
    + destruct (decide (total = 0)) as [->|Hne].
      * exists [CallLength]. split; [|right; right; by exists []].
        unfold getRecentJobs, getRecentJobsTry,
          tryCatch, bind, recentSelect, bind, requireClient,
          getJobsLength.
        by rewrite Hc, Hlen.
      * exists [CallLength; CallRange (Z.max 0 (total - limitOf args)) total].
        split; [|right; right; by exists [(Z.max 0 (total - limitOf args), total)]].
        unfold getRecentJobs, getRecentJobsTry, tryCatch, bind.
        rewrite (recentSelect_run client args v total Hc Hlen Hne).
        by destruct (jobsRange client _ _).
    + exists [CallLength]. split; [|right; right; by exists []].
      unfold getRecentJobs, getRecentJobsTry,
        tryCatch, bind, recentSelect, bind, requireClient,
        getJobsLength.
      by rewrite Hc, Hlen.
  - exists []. split; [|by left].
    unfold getRecentJobs, getRecentJobsTry,
      tryCatch, bind, recentSelect, bind, requireClient.
    rewrite Hc. simpl. by rewrite after_nil.
Qed.

Lemma onArguments_world failure property args operation v :
  (∀ a, ∃ cs, snd (operation a v) = after cs v ∧ requestShape (Some a) cs) →
  ∃ cs, snd (onArguments failure property args operation v) = after cs v
        ∧ requestShape args cs.
Proof.
  intros Hop. destruct args as [a|]; [apply Hop|].
  exists []. split; [|by left].
  unfold onArguments, tryCatch, bind, requireClient.
  rewrite after_nil. by destruct (eaccClient v).
Qed.

(** X15.  Whatever the tool name, the arguments and the client's behaviour,
    one tool call only ever appends to the history of requests, never unsets
    the client once it is set up, and makes either no request, or one lookup
    by id, or one count request followed by range requests only: the count is
    asked at most once per call and before any range. *)
Theorem tool_call_effects
    (toLocaleString : Z -> string) (client : EACCClient)
    (name : string) (args : option ToolArgs) (w : World) :
  ∃ cs : list Call,
    calls (snd (callTool toLocaleString client name args w)) = calls w ++ cs
    ∧ (eaccClient w = true →
       eaccClient (snd (callTool toLocaleString client name args w)) = true)
    ∧ (cs = [] ∨ (∃ a, args = Some a ∧ cs = [CallById (arg_jobId a)])
       ∨ ∃ wins : list (Z * Z),
           cs = CallLength :: ((fun win => CallRange win.1 win.2) <$> wins)).
Proof.
  assert (Hcases : (eaccClient w = true ∨ initOutcome client = InitOk)
                   ∨ (eaccClient w = false
                      ∧ ∃ e, initOutcome client = ConstructFails e
                             ∨ initOutcome client = ConnectFails e)).
  { destruct (eaccClient w); [by left; left|].
    destruct (initOutcome client) as [|e|e]; [by left; right| |];
      right; (split; [done|]); exists e; [by left | by right]. }
  destruct Hcases as [Hready | (Hc & e & Hinit)].
  - rewrite (callTool_dispatch _ _ _ _ _ Hready).
    assert (Hop : ∃ cs,
              snd (if String.eqb name "get_job_count"
                   then getJobCount client (initialized w)
                   else if String.eqb name "search_jobs"
                   then onArguments "Failed to search jobs: " "status" args
                          (searchJobs client) (initialized w)
                   else if String.eqb name "get_job_details"
                   then onArguments "Failed to get job details: " "jobId" args
                          (getJobDetails toLocaleString client) (initialized w)
                   else if String.eqb name "get_recent_jobs"
                   then onArguments "Failed to get recent jobs: " "limit" args
                          (getRecentJobs toLocaleString client) (initialized w)
                   else (Returned (textResponse ("Error: Unknown tool: " +:+ name)),
                         initialized w))
              = after cs (initialized w) ∧ requestShape args cs).
    { destruct (String.eqb name "get_job_count");
        [apply getJobCount_world|].
      destruct (String.eqb name "search_jobs");
        [apply onArguments_world; intros a; apply searchJobs_world|].
      destruct (String.eqb name "get_job_details");
        [apply onArguments_world; intros a; apply getJobDetails_world|].
      destruct (String.eqb name "get_recent_jobs");
        [apply onArguments_world; intros a; apply getRecentJobs_world|].
      exists []. split; [by rewrite after_nil | by left]. }
    destruct Hop as (cs & -> & Hshape). exists cs. by repeat split.
  - exists []. rewrite app_nil_r.
    unfold callTool, tryCatch, bind at 1, initializeEACCClient. rewrite Hc.
    split; [by destruct Hinit as [-> | ->]|].
    split; [congruence | by left].
Qed.

(** A search over forty-five jobs whose first chunk fails: the history grows
    by the count and two range requests. *)
Example tool_call_history :
  calls (snd (callTool pretty (ledgerClient mixedLedger failFirst) "search_jobs"
                (Some (searchArgs (Some "open") None (Some 20))) freshWorld))
  = [CallLength; CallRange 0 20; CallRange 20 40].
Proof. vm_compute. reflexivity. Qed.

Lemma tool_call_effects_witness :
  ∃ cs : list Call,
    calls (snd (callTool pretty (ledgerClient fiveJobs noFault) "get_recent_jobs"
                  (Some (searchArgs None None (Some 2))) readyWorld))
    = calls readyWorld ++ cs
    ∧ (eaccClient readyWorld = true →
       eaccClient (snd (callTool pretty (ledgerClient fiveJobs noFault)
                          "get_recent_jobs"
                          (Some (searchArgs None None (Some 2)))
                          readyWorld)) = true)
    ∧ (cs = []
       ∨ (∃ a, Some (searchArgs None None (Some 2)) = Some a
               ∧ cs = [CallById (arg_jobId a)])
       ∨ ∃ wins : list (Z * Z),
           cs = CallLength :: ((fun win => CallRange win.1 win.2) <$> wins)).
Proof.
  exact (tool_call_effects pretty (ledgerClient fiveJobs noFault)
           "get_recent_jobs" (Some (searchArgs None None (Some 2))) readyWorld).
Defined.
